(** * FirstCyclingScraper: extraction and normalization rules of
    [first_cycling_api/old_stuff.py]

    A shallow embedding of the row builder [RiderResult.__init__], of the
    race side-table extractor and of the derived race-type flags, with the
    properties of the specification stated over it.

    Conventions of the embedding.
    - Text is [string] read as Latin-1: a character is its code point, below
      256. The [str] methods used by the source are in module [PyStr];
      [capitalize], which the source applies to the colour tokens only, is
      given for ASCII letters.
    - A Python object ([self], [series]) is its attribute dictionary, a
      [gmap string value]; an attribute that was never assigned is a key that
      is not in the map, an attribute assigned [None] maps to [VNone].
    - A statement that can raise returns [result]: [Ok v] or [Raise e].
    - [utilities.py] and the libraries ([dateutil], [bs4], [float]) are not
      part of the source file: they are the fields of the class [Utilities]
      and the type [F] of float values. *)

From Stdlib Require Import ZArith QArith Ascii.
From stdpp Require Import gmap strings list fin_maps pretty.

Local Close Scope Q_scope.
Local Open Scope Z_scope.

(** ** Exceptions and the error monad *)

Inductive exn :=
  | ParserError
  | ValueError
  | IndexError
  | KeyError
  | TypeError
  | AttributeError
  | NameError.

Inductive result (A : Type) :=
  | Ok (a : A)
  | Raise (e : exn).
Arguments Ok {A} a.
Arguments Raise {A} e.

Global Instance result_ret : MRet result := λ A a, Ok a.
Global Instance result_bind : MBind result := λ A B k m,
  match m with
  | Ok a => k a
  | Raise e => Raise e
  end.

(** [l[i]] for a non-negative literal index. *)
Definition subscript {A} (l : list A) (i : nat) : result A :=
  match l !! i with
  | Some x => Ok x
  | None => Raise IndexError
  end.

(** [l[-1]]. *)
Definition subscript_last {A} (l : list A) : result A :=
  match last l with
  | Some x => Ok x
  | None => Raise IndexError
  end.

(** ** The [str] methods of the source, on Latin-1 text *)

Module PyStr.

(** [c.isspace()]: the ASCII whitespace, the four separators 28 to 31, the
    next-line character 133 and the no-break space 160. *)
Definition isspace (c : ascii) : bool :=
  let n := nat_of_ascii c in
  ((9 <=? n)%nat && (n <=? 13)%nat) || ((28 <=? n)%nat && (n <=? 32)%nat)
  || (n =? 133)%nat || (n =? 160)%nat.

(** The whitespace [int] accepts around a number: the six characters of C,
    and the whitespace above 127. *)
Definition int_space (c : ascii) : bool :=
  let n := nat_of_ascii c in
  ((9 <=? n)%nat && (n <=? 13)%nat) || (n =? 32)%nat
  || (n =? 133)%nat || (n =? 160)%nat.

(** [c.isdecimal()]: the digits 0 to 9. *)
Definition isdigit (c : ascii) : bool :=
  let n := nat_of_ascii c in (48 <=? n)%nat && (n <=? 57)%nat.

(** [c.isnumeric()]: the digits, the superscripts 2, 3 and 1 (178, 179,
    185) and the fractions one quarter, one half, three quarters (188 to
    190). *)
Definition isnumeric_char (c : ascii) : bool :=
  let n := nat_of_ascii c in
  isdigit c || (n =? 178)%nat || (n =? 179)%nat || (n =? 185)%nat
  || ((188 <=? n)%nat && (n <=? 190)%nat).

Definition digit_val (c : ascii) : Z := Z.of_nat (nat_of_ascii c) - 48.

Fixpoint forallb (p : ascii → bool) (s : string) : bool :=
  match s with
  | EmptyString => true
  | String c s' => p c && forallb p s'
  end.

Fixpoint filter (p : ascii → bool) (s : string) : string :=
  match s with
  | EmptyString => EmptyString
  | String c s' => if p c then String c (filter p s') else filter p s'
  end.

(** [s.isnumeric()]: non-empty and every character numeric. *)
Definition isnumeric (s : string) : bool :=
  match s with
  | EmptyString => false
  | _ => forallb isnumeric_char s
  end.

(** [s.isdecimal()]: non-empty and every character a digit 0 to 9. *)
Definition isdecimal (s : string) : bool :=
  match s with
  | EmptyString => false
  | _ => forallb isdigit s
  end.

(** Leading and trailing characters of a class [space] dropped. *)
Fixpoint lstrip_by (space : ascii → bool) (s : string) : string :=
  match s with
  | EmptyString => EmptyString
  | String c s' => if space c then lstrip_by space s' else s
  end.

Fixpoint rstrip_by (space : ascii → bool) (s : string) : string :=
  match s with
  | EmptyString => EmptyString
  | String c s' =>
      match rstrip_by space s' with
      | EmptyString => if space c then EmptyString else String c EmptyString
      | r => String c r
      end
  end.

Definition lstrip (s : string) : string := lstrip_by isspace s.
Definition rstrip (s : string) : string := rstrip_by isspace s.

(** [s.strip()]. *)
Definition strip (s : string) : string := rstrip (lstrip s).

(** [s.replace(old, new)] for a one-character [old]. *)
Fixpoint replace (old : ascii) (new : string) (s : string) : string :=
  match s with
  | EmptyString => EmptyString
  | String c s' =>
      if Ascii.eqb c old then new +:+ replace old new s'
      else String c (replace old new s')
  end.

(** [needle in hay]. *)
Fixpoint contains (needle hay : string) : bool :=
  String.prefix needle hay ||
  match hay with
  | EmptyString => false
  | String _ hay' => contains needle hay'
  end.

Definition startswith (s pre : string) : bool := String.prefix pre s.

Definition endswith (s suf : string) : bool :=
  String.prefix (String.rev suf) (String.rev s).

(** [s.split(sep)] for a non-empty separator: left to right, the matches
    do not overlap.  [skip] counts the characters of a matched separator
    that are still to be dropped, [cur] is the current piece, reversed. *)
Fixpoint split_go (sep : string) (skip : nat) (cur : string) (s : string)
  : list string :=
  match s with
  | EmptyString => [String.rev cur]
  | String c s' =>
      match skip with
      | S k => split_go sep k cur s'
      | O =>
          if String.prefix sep s
          then String.rev cur :: split_go sep (String.length sep - 1) "" s'
          else split_go sep O (String c cur) s'
      end
  end.

Definition split (sep : string) (s : string) : list string :=
  split_go sep O "" s.

(** [s.split()]: the maximal runs of non-whitespace characters. *)
Fixpoint split_ws_go (cur : option string) (s : string) : list string :=
  match s with
  | EmptyString => option_list (String.rev <$> cur)
  | String c s' =>
      if isspace c
      then option_list (String.rev <$> cur) ++ split_ws_go None s'
      else split_ws_go (Some (String c (default "" cur))) s'
  end.

Definition split_ws (s : string) : list string := split_ws_go None s.

Definition upper (c : ascii) : ascii :=
  let n := nat_of_ascii c in
  if (97 <=? n)%nat && (n <=? 122)%nat then ascii_of_nat (n - 32) else c.

Definition lower (c : ascii) : ascii :=
  let n := nat_of_ascii c in
  if (65 <=? n)%nat && (n <=? 90)%nat then ascii_of_nat (n + 32) else c.

Fixpoint map (f : ascii → ascii) (s : string) : string :=
  match s with
  | EmptyString => EmptyString
  | String c s' => String (f c) (map f s')
  end.

(** [s.capitalize()]: first character upper case, the rest lower case. *)
Definition capitalize (s : string) : string :=
  match s with
  | EmptyString => EmptyString
  | String c s' => String (upper c) (map lower s')
  end.

(** ["".join(l)]. *)
Definition join (l : list string) : string := foldr String.append "" l.

(** The value of a string of decimal digits, most significant first. *)
Fixpoint digits_val (acc : Z) (s : string) : Z :=
  match s with
  | EmptyString => acc
  | String c s' => digits_val (10 * acc + digit_val c) s'
  end.

(** The digit groups of an integer literal: digits, with single
    underscores allowed between two digits. *)
Definition digit_groups_ok (s : string) : bool :=
  let groups := split "_" s in
  List.forallb isdecimal groups.

(** [int(s)]: the whitespace [int] accepts dropped on both sides, an
    optional sign, then digits; anything else is a [ValueError]. *)
Definition int (s : string) : result Z :=
  let body := rstrip_by int_space (lstrip_by int_space s) in
  let '(neg, ds) :=
    match body with
    | String c r =>
        if Ascii.eqb c "-" then (true, r)
        else if Ascii.eqb c "+" then (false, r)
        else (false, body)
    | EmptyString => (false, body)
    end in
  if digit_groups_ok ds
  then let v := digits_val 0 (filter isdigit ds) in
       Ok (if neg : bool then - v else v)
  else Raise ValueError.

End PyStr.

(** ** The document tree, as far as the source looks at it

    [bs4] is a collaborator of the source; a tag is represented by what the
    source asks of it: its [text], [find_all('a')] and [find_all('img')].
    [tag.img] and [tag.a] are the first elements of these lists. An image
    is its [src] attribute, when it has one, and what follows it in its
    parent. *)

Inductive sibling :=
  | NoSibling
  | TextSibling (s : string)
  | TagSibling.

Record img := Img { src : option string; next_sibling : sibling }.

(** [img['src']]. *)
Definition img_src (i : img) : result string :=
  match src i with
  | Some s => Ok s
  | None => Raise KeyError
  end.
Record link := Link { href : string }.

Record tag := Tag {
  text : string;
  find_all_a : list link;
  find_all_img : list img
}.

Definition tag_img (t : tag) : option img := head (find_all_img t).
Definition tag_a (t : tag) : option link := head (find_all_a t).

Record date := Date { year : Z; month : Z; day : Z }.

Definition LF : ascii := ascii_of_nat 10.
Definition TAB : ascii := ascii_of_nat 9.
Definition CR : ascii := ascii_of_nat 13.

Section Model.

(** Python floats are kept abstract. *)
Context {F : Type}.

(** ** Python values *)

#[warnings="-register-all"]
Inductive value :=
  | VNone
  | VBool (b : bool)
  | VInt (n : Z)
  | VFloat (f : F)
  | VStr (s : string)
  | VDate (d : date)
  | VDict (items : list (string * value)).

(** What [from .utilities import *] brings into scope and the source uses,
    with the builtin [float]. None of it is defined in the source file. *)
Class Utilities := {
  (** [dateutil]'s [parse(s).date()]; [Raise ParserError] when the text is
      not a date. *)
  parse : string → result date;
  (** [float(s)] and [bool(f)] of a float. *)
  float : string → result F;
  float_bool : F → bool;
  race_link_to_race_id : link → result value;
  race_link_to_stage_num : link → result value;
  rider_link_to_id : option link → result value;
  img_to_country_code : option img → result value;
  img_to_profile : img → result value;
  colour_icons : list string;
  profile_icon_map : gmap string string;
  uci_categories : list string;
  championships_categories : list string;
  U23_categories : list string;
  one_day_categories : list string
}.

Context {U : Utilities}.

(** [bool(v)]. *)
Definition truthy (v : value) : bool :=
  match v with
  | VNone => false
  | VBool b => b
  | VInt n => negb (n =? 0)
  | VFloat f => float_bool f
  | VStr s => negb (String.eqb s "")
  | VDate _ => true
  | VDict items => match items with [] => false | _ => true end
  end.

(** [x or y]: [x] when it is truthy, else [y]. *)
Definition py_or (x y : value) : value := if truthy x then x else y.

(** [None] or a string, as a value. *)
Definition opt_str (o : option string) : value :=
  match o with
  | Some s => VStr s
  | None => VNone
  end.

(** [d[k]] on a dictionary or a [pd.Series]. *)
Definition getitem {A} (d : gmap string A) (k : string) : result A :=
  match d !! k with
  | Some v => Ok v
  | None => Raise KeyError
  end.

(** [k in d]. *)
Definition has_key {A} (d : gmap string A) (k : string) : bool :=
  bool_decide (is_Some (d !! k)).

(** [a, b = l]. *)
Definition unpack2 {A} (l : list A) : result (A * A) :=
  match l with
  | [a; b] => Ok (a, b)
  | _ => Raise ValueError
  end.

(** ** [RiderResult.__init__] *)

(** Lines 176-183: the race date, with January and the 1st for a month or
    a day given as zero. *)
Definition parse_race_date (date_text : string) : result date :=
  match parse date_text with
  | Ok d => Ok d
  | Raise ParserError =>
      match PyStr.split "-" date_text with
      | [year; month; day] =>
          m ← PyStr.int month;
          let month := if m =? 0 then "01" else month in
          d ← PyStr.int day;
          let day := if d =? 0 then "01" else day in
          let fixed_date := year +:+ "-" +:+ month +:+ "-" +:+ day in
          parse fixed_date
      | _ => Raise ValueError
      end
  | Raise e => Raise e
  end.

(** Line 186. *)
Definition parse_result (result_text : string) : result value :=
  if PyStr.isnumeric result_text
  then n ← PyStr.int result_text; Ok (VInt n)
  else Ok (VStr result_text).

(** Line 187. *)
Definition parse_gc_standing (gc_text : string) : result value :=
  if String.eqb gc_text "" then Ok VNone
  else n ← PyStr.int gc_text; Ok (VInt n).

(** Line 188. *)
Definition parse_icon (icon : tag) : result value :=
  match tag_img icon with
  | Some i =>
      s ← img_src i;
      f ← subscript_last (PyStr.split "/" s);
      Ok (VStr f)
  | None => Ok VNone
  end.

(** Line 190; [uci] is [None] for a row of seven cells, and a tag is
    always truthy. *)
Definition parse_uci_points (uci : option tag) : result value :=
  match uci with
  | Some td =>
      if String.eqb (text td) "-" then Ok (VInt 0)
      else f ← float (text td); Ok (VFloat f)
  | None => Ok VNone
  end.

(** Line 197. *)
Definition full_name_of (race_td : tag) : string :=
  PyStr.replace CR ""
    (PyStr.replace TAB ""
       (PyStr.replace LF " " (PyStr.strip (text race_td)))).

(** Line 198. *)
Definition tokens_of (full_name : string) : list string :=
  PyStr.strip <$> PyStr.split "|" full_name.

(** Lines 193-207: the cell with the race name. *)
Definition parse_race_td (race_td : tag) (self : gmap string value)
  : result (gmap string value) :=
  let links := find_all_a race_td in
  l0 ← subscript links 0;
  race_id ← race_link_to_race_id l0;
  let self := <["race_id" := race_id]> self in
  let imgs := find_all_img race_td in
  i0 ← subscript imgs 0;
  cc ← img_to_country_code (Some i0);
  let self := <["race_country_code" := cc]> self in
  let full_name := full_name_of race_td in
  let self := <["full_name" := VStr full_name]> self in
  let tokens := tokens_of full_name in
  t0 ← subscript tokens 0;
  let self := <["name" := VStr t0]> self in
  if (length imgs =? 2)%nat then
    i1 ← subscript imgs 1;
    ecc ← img_to_country_code (Some i1);
    let self := <["edition_country_code" := ecc]> self in
    t1 ← subscript tokens 1;
    Ok (<["edition_city" := VStr t1]> self)
  else if (length links =? 2)%nat then
    l0 ← subscript links 0;
    sn ← race_link_to_stage_num l0;
    Ok (<["stage_num" := sn]> self)
  else if (length tokens =? 2)%nat then
    t1 ← subscript tokens 1;
    Ok (<["classification" := VStr t1]> self)
  else Ok self.

(** Lines 168-207. The argument is [row.find_all('td')]; the result is
    [vars(self)], empty when the row has fewer than seven cells. *)
Definition RiderResult_init (tds : list tag) : result (gmap string value) :=
  if (length tds <? 7)%nat then Ok ∅
  else
    let tds := if (length tds =? 7)%nat
               then (Some <$> tds) ++ [None] else Some <$> tds in
    match tds with
    | [Some date; Some date_alt; Some result; Some gc_standing; Some icon;
       Some race_td; Some cat; uci] =>
        d ← parse_race_date (text date);
        let self : gmap string value := <["date" := VDate d]> ∅ in
        r ← parse_result (text result);
        let self := <["result" := r]> self in
        g ← parse_gc_standing (text gc_standing);
        let self := <["gc_standing" := g]> self in
        ic ← parse_icon icon;
        let self := <["icon" := ic]> self in
        let self := <["cat" := VStr (text cat)]> self in
        up ← parse_uci_points uci;
        let self := <["uci_points" := up]> self in
        parse_race_td race_td self
    | _ => Raise ValueError
    end.

(** ** The race side-table (lines 227-275)

    One row of the table under its header: the value cell as
    [pd.read_html] gives it ([details]) and the [tr] itself
    ([soup_details]), both indexed by the text of the key cell; the keys of
    a table are distinct. A value cell is its text, or a number: NaN for an
    empty or NA-like cell, a float or an integer when the whole column is
    numeric. *)

Inductive cell :=
  | CellText (s : string)
  | CellNumber (v : value).

Record info_row := InfoRow { value_cell : cell; tr : tag }.

(** The text of a cell, for an operation that raises [e] on a number. *)
Definition cell_text (c : cell) (e : exn) : result string :=
  match c with
  | CellText s => Ok s
  | CellNumber _ => Raise e
  end.

(** The cell as a Python value. *)
Definition cell_value (c : cell) : value :=
  match c with
  | CellText s => VStr s
  | CellNumber v => v
  end.

Section RaceInfo.

Variable info : gmap string info_row.
(** [self.year]. *)
Variable self_year : Z.

Definition details : gmap string cell := value_cell <$> info.
Definition soup_details : gmap string tag := tr <$> info.

(** Line 233. *)
Definition get_nation (self : gmap string value)
  : result (gmap string value) :=
  let key := if has_key details "Nation" then "Nation" else "Where" in
  row ← getitem soup_details key;
  nation ← img_to_country_code (tag_img row);
  Ok (<["nation" := nation]> self).

(** Lines 235-241. *)
Definition get_cities (self : gmap string value)
  : result (gmap string value) :=
  if has_key details "Where" then
    where_ ← getitem details "Where";
    where_ ← cell_text where_ TypeError;
    if PyStr.contains " -> " where_ then
      '(s, e) ← unpack2 (PyStr.split " -> " where_);
      Ok (<["end_city" := VStr e]> (<["start_city" := VStr s]> self))
    else
      Ok (<["start_city" := VStr where_]>
            (<["end_city" := VStr where_]> self))
  else Ok (<["start_city" := VNone]> (<["end_city" := VNone]> self)).

(** [next_sibling.strip()]. *)
Definition sibling_strip (s : sibling) : result string :=
  match s with
  | TextSibling t => Ok (PyStr.strip t)
  | NoSibling => Raise AttributeError
  | TagSibling => Raise TypeError
  end.

(** Lines 243-245: several flags in the "Nation" row. *)
Definition get_nation_edge_case (self : gmap string value)
  : result (gmap string value) :=
  if has_key details "Nation" then
    row ← getitem soup_details "Nation";
    if (1 <? length (find_all_img row))%nat then
      i ← subscript_last (find_all_img row);
      nation ← img_to_country_code (Some i);
      let self := <["nation" := nation]> self in
      city ← sibling_strip (next_sibling i);
      Ok (<["start_city" := VStr city]> (<["end_city" := VStr city]> self))
    else Ok self
  else Ok self.

Definition parse_with_year (x : string) : result date :=
  parse (x +:+ ", " +:+ pretty self_year).

(** Lines 248-254. *)
Definition get_dates (self : gmap string value)
  : result (gmap string value) :=
  if has_key details "Date" then
    date_ ← getitem details "Date";
    date_ ← cell_text date_ TypeError;
    if PyStr.contains " - " date_ then
      ds ← mapM parse_with_year (PyStr.split " - " date_);
      '(s, e) ← unpack2 ds;
      Ok (<["end_date" := VDate e]> (<["start_date" := VDate s]> self))
    else
      d ← parse_with_year date_;
      Ok (<["start_date" := VDate d]> (<["end_date" := VDate d]> self))
  else Ok (<["start_date" := VNone]> (<["end_date" := VNone]> self)).

(** Line 257. *)
Definition get_distance : result value :=
  if has_key details "Distance" then
    distance ← getitem details "Distance";
    distance ← cell_text distance AttributeError;
    tok ← subscript (PyStr.split_ws distance) 0;
    f ← float tok;
    Ok (VFloat f)
  else Ok VNone.

(** Line 258. *)
Definition get_cat : result value :=
  if has_key details "CAT" then c ← getitem details "CAT"; Ok (cell_value c)
  else Ok VNone.

(** Lines 259-262. *)
Definition get_stage_num (self : gmap string value)
  : result (gmap string value) :=
  stage_num ←
    (if has_key details "What" then
       what ← getitem details "What";
       what ← cell_text what TypeError;
       n ← PyStr.int (PyStr.filter PyStr.isnumeric_char what);
       Ok (VInt n)
     else Ok VNone);
  let self := <["stage_num" := stage_num]> self in
  if has_key details "What" then
    what ← getitem details "What";
    what ← cell_text what TypeError;
    if PyStr.contains "Prologue" what
    then Ok (<["stage_num" := VInt 0]> self)
    else Ok self
  else Ok self.

Definition row_profile (key : string) : result value :=
  row ← getitem soup_details key;
  match tag_img row with
  | Some i => img_to_profile i
  | None => Ok VNone
  end.

(** Lines 265-269. *)
Definition get_profile : result value :=
  if has_key details "Distance" then row_profile "Distance"
  else if has_key details "What" then row_profile "What"
  else Ok VNone.

(** Lines 272-275. *)
Fixpoint get_classification_leaders (names : list string)
  (leaders : list (string * value)) : result (list (string * value)) :=
  match names with
  | [] => Ok leaders
  | classification :: names =>
      if has_key details classification then
        row ← getitem soup_details classification;
        rider ← rider_link_to_id (tag_a row);
        get_classification_leaders names
          (leaders ++ [(classification, rider)])
      else get_classification_leaders names leaders
  end.

(** Lines 227-275: the attributes the extractor assigns. *)
Definition race_info_init : result (gmap string value) :=
  self ← get_nation ∅;
  self ← get_cities self;
  self ← get_nation_edge_case self;
  self ← get_dates self;
  distance ← get_distance;
  let self := <["distance" := distance]> self in
  cat ← get_cat;
  let self := <["cat" := cat]> self in
  self ← get_stage_num self;
  profile ← get_profile;
  let self := <["profile" := profile]> self in
  leaders ← get_classification_leaders
    ["Leader"; "Youth"; "Points"; "Mountain"; "Combative"] [];
  Ok (<["classification_leaders" := VDict leaders]> self).

End RaceInfo.

(** ** The race-type flags of a result (lines 295-323)

    [self_cat], [self_name] and [self_icon] are [self.cat], [self.name]
    and [self.icon] of the result; the loop over the colours is read as
    the body of [if self.icon:]. *)

Section ResultsDataframe.

Variables self_cat self_name : string.
Variable self_icon : option string.

Definition icon_truthy : bool :=
  match self_icon with
  | Some s => negb (String.eqb s "")
  | None => false
  end.

(** Lines 306-310: the loop, left at the first colour found. *)
Fixpoint first_colour (icon : string) (cols : list string)
  : option string :=
  match cols with
  | [] => None
  | col :: cols =>
      if PyStr.contains (col +:+ ".") icon
      then Some (PyStr.capitalize col)
      else first_colour icon cols
  end.

Definition jersey_colour : value :=
  match self_icon with
  | Some icon =>
      if icon_truthy then opt_str (first_colour icon colour_icons)
      else VNone
  | None => VNone
  end.

(** Lines 312-314. *)
Definition profile : option string :=
  if negb (truthy jersey_colour)
  then icon ← self_icon; profile_icon_map !! icon
  else None.

(** [test(series['profile']) if series['profile'] else None]. *)
Definition if_profile (test : string → bool) : value :=
  match profile with
  | Some p => if truthy (VStr p) then VBool (test p) else VNone
  | None => VNone
  end.

(** [series['profile'] == 'TTT']. *)
Definition ttt : value :=
  VBool (bool_decide (profile = Some "TTT")).

Definition itt : value := if_profile (PyStr.contains "ITT").

Definition tt : value := py_or itt ttt.

Definition results_series : gmap string value :=
  let series : gmap string value := ∅ in
  let series :=
    <["uci_race" := VBool (bool_decide (self_cat ∈ uci_categories))]>
      series in
  let series :=
    <["championship" :=
        VBool (bool_decide (self_cat ∈ championships_categories))]>
      series in
  let series :=
    <["u23" := VBool (bool_decide (self_cat ∈ U23_categories))]> series in
  let series :=
    <["cx" := VBool (PyStr.startswith self_name "CX -")]> series in
  let series :=
    <["juniors" := VBool (PyStr.startswith self_cat "J")]> series in
  let series :=
    <["one_day" := VBool (bool_decide (self_cat ∈ one_day_categories))]>
      series in
  let series := <["jersey_colour" := jersey_colour]> series in
  let series := <["profile" := opt_str profile]> series in
  let series := <["ttt" := ttt]> series in
  let series := <["itt" := itt]> series in
  let series := <["tt" := tt]> series in
  let series :=
    <["mtf" := if_profile (λ p, PyStr.endswith p " MTF")]> series in
  let series :=
    <["mountain" := if_profile (PyStr.contains "Mountain")]> series in
  let series :=
    <["hilly" := if_profile (PyStr.contains "Hilly")]> series in
  let series := <["flat" := if_profile (PyStr.contains "Flat")]> series in
  <["cobbled" := if_profile (PyStr.contains "Cobbles")]> series.

End ResultsDataframe.

End Model.

Arguments value : clear implicits.
Arguments Utilities : clear implicits.

(** ** A concrete environment, for closed examples

    An instance of [Utilities] in the shape of the site's pages: a link is
    [race.php?r=<race>&y=<year>&e=<stage>], a flag is
    [img/flag/<code>.png], an icon is [img/mini/<icon>.png].  It stands in
    for [utilities.py] wherever a statement is evaluated on a concrete row;
    the general theorems do not depend on it. *)


Module Sample.

Definition days_in_month (y m : Z) : Z :=
  if bool_decide (m ∈ [4; 6; 9; 11]) then 30
  else if m =? 2 then
    if ((y mod 4 =? 0) && negb (y mod 100 =? 0)) || (y mod 400 =? 0)
    then 29 else 28
  else 31.

(** The date of three decimal texts, when it exists. *)
Definition date_of (y m d : string) : result date :=
  if PyStr.isdecimal y && PyStr.isdecimal m && PyStr.isdecimal d then
    let yv := PyStr.digits_val 0 y in
    let mv := PyStr.digits_val 0 m in
    let dv := PyStr.digits_val 0 d in
    if (1 <=? yv) && (1 <=? mv) && (mv <=? 12) && (1 <=? dv)
       && (dv <=? days_in_month yv mv)
    then Ok (Date yv mv dv) else Raise ParserError
  else Raise ParserError.

(** Numeric [year-month-day] text, and [day.month, year] text as the
    side-table gives it once the year is appended: that date when it
    exists, [ParserError] otherwise. *)
Definition sample_parse (s : string) : result date :=
  match PyStr.split "-" s with
  | [y; m; d] => date_of y m d
  | _ =>
      match PyStr.split ", " s with
      | [dm; y] =>
          match PyStr.split "." dm with
          | [d; m] => date_of y m d
          | _ => Raise ParserError
          end
      | _ => Raise ParserError
      end
  end.

(** Decimal text [digits] or [digits.digits], as a rational. *)
Definition sample_float (s : string) : result Q :=
  match PyStr.split "." (PyStr.strip s) with
  | [i] =>
      if PyStr.isdecimal i then Ok (inject_Z (PyStr.digits_val 0 i))
      else Raise ValueError
  | [i; f] =>
      if PyStr.isdecimal i && PyStr.isdecimal f
      then Ok (Qred (PyStr.digits_val 0 (i +:+ f)
                       # Pos.pow 10 (Pos.of_nat (String.length f))))
      else Raise ValueError
  | _ => Raise ValueError
  end.

Definition sample_float_bool (q : Q) : bool := negb (Qeq_bool q 0).

(** The value of the query parameter [k] of a link target. *)
Definition query_param (k : string) (url : string) : option string :=
  match PyStr.split k url with
  | _ :: rest :: _ => head (PyStr.split "&" rest)
  | _ => None
  end.

Definition sample_race_link_to_race_id (a : link) : result (value Q) :=
  match query_param "r=" (href a) with
  | Some v => n ← PyStr.int v; Ok (VInt n)
  | None => Raise IndexError
  end.

Definition sample_race_link_to_stage_num (a : link) : result (value Q) :=
  match query_param "e=" (href a) with
  | Some v => n ← PyStr.int v; Ok (VInt n)
  | None => Ok VNone
  end.

Definition sample_rider_link_to_id (a : option link) : result (value Q) :=
  match a with
  | Some a =>
      match query_param "r=" (href a) with
      | Some v => n ← PyStr.int v; Ok (VInt n)
      | None => Raise IndexError
      end
  | None => Raise TypeError
  end.

(** The last segment of a path. *)
Definition filename (path : string) : string :=
  default "" (last (PyStr.split "/" path)).

Definition stem (path : string) : string :=
  default "" (head (PyStr.split "." (filename path))).

Definition sample_img_to_country_code (i : option img) : result (value Q) :=
  match i with
  | Some i => s ← img_src i; Ok (VStr (stem s))
  | None => Ok VNone
  end.

Definition sample_colour_icons : list string :=
  ["green"; "red"; "yellow"; "pink"; "violet"; "blue"; "black"; "orange";
   "lightblue"; "white"; "polka"].

Definition sample_profile_icon_map : gmap string string :=
  list_to_map
    [("Bakketempo.png", "Mountain ITT"); ("Fjell-MF.png", "Mountain MTF");
     ("Fjell.png", "Mountain"); ("Flatt.png", "Flat");
     ("Smaakupert.png", "Hilly"); ("Tempo.png", "ITT");
     ("Brosten.png", "Cobbles"); ("Lagtempo.png", "TTT")].

Definition sample_img_to_profile (i : img) : result (value Q) :=
  s ← img_src i; Ok (opt_str (sample_profile_icon_map !! filename s)).

Definition utilities : Utilities Q := {|
  parse := sample_parse;
  float := sample_float;
  float_bool := sample_float_bool;
  race_link_to_race_id := sample_race_link_to_race_id;
  race_link_to_stage_num := sample_race_link_to_stage_num;
  rider_link_to_id := sample_rider_link_to_id;
  img_to_country_code := sample_img_to_country_code;
  img_to_profile := sample_img_to_profile;
  colour_icons := sample_colour_icons;
  profile_icon_map := sample_profile_icon_map;
  uci_categories := ["1.1"; "1.2"; "2.1"; "2.2"; "1.UWT"; "2.UWT"];
  championships_categories := ["CN"; "CCRR"; "WC"; "OL"];
  U23_categories := ["1.2U"; "2.2U"; "1.NCup"; "2.NCup"];
  one_day_categories := ["1.1"; "1.2"; "1.UWT"; "CN"; "WC"; "OL"]
|}.

Definition td (s : string) : tag := Tag s [] [].

Definition flag (code : string) : img :=
  Img (Some ("img/flag/" +:+ code +:+ ".png")) NoSibling.

(** A championship row of 2020 whose name cell has two flags, two links
    and a second token, in the eight-column layout. *)
Definition championship_row : list tag :=
  [td "2020-00-15"; td "15.01"; td "1"; td ""; td "";
   Tag "World Championships | Imola"
     [Link "race.php?r=26&y=2020"; Link "race.php?r=26&y=2020&e=1"]
     [flag "UCI"; flag "ITA"];
   td "WC"; td "-"].

(** A stage row, in the seven-column layout. *)
Definition stage_row : list tag :=
  [td "2016-07-06"; td "06.07"; td "DNF"; td "12";
   Tag "" [] [Img (Some "img/mini/Fjell-MF.png") NoSibling];
   Tag "Tour de France | 5th stage"
     [Link "race.php?r=17&y=2016"; Link "race.php?r=17&y=2016&e=5"]
     [flag "FRA"];
   td "2.UWT"].

End Sample.

(** ** Statements of the specification, word for word

    Three sentences of the specification are compared with the source
    below; each is written here as the specification has it. *)

Module Spec.

Section Statements.
Context {F : Type} {U : Utilities F}.

(** Section 4.5, step 4 and section 8: [tt] is [itt OR ttt] with
    absent-propagation: an absent [itt] with a False [ttt] gives an
    absent [tt]; a False [itt] with a True [ttt] gives True. *)
Definition tt_absent_propagation (series : gmap string (value F)) : Prop :=
  (series !! "itt" = Some VNone → series !! "ttt" = Some (VBool false) →
   series !! "tt" = Some VNone)
  ∧ (series !! "itt" = Some (VBool false) →
     series !! "ttt" = Some (VBool true) →
     series !! "tt" = Some (VBool true)).

(** Section 4.2, step 3: in a stage row the second link encodes the
    stage number. *)
Definition stage_from_second_link (tds : list tag) : Prop :=
  ∀ self race_td second sn,
    RiderResult_init tds = Ok self →
    tds !! 5%nat = Some race_td →
    length (find_all_a race_td) = 2%nat →
    length (find_all_img race_td) ≠ 2%nat →
    find_all_a race_td !! 1%nat = Some second →
    race_link_to_stage_num second = Ok sn →
    self !! "stage_num" = Some sn.

(** Section 4.3: newline, tab and carriage return each become a single
    space, on the stripped text. *)
Definition full_name (race_td_text : string) : string :=
  PyStr.replace CR " "
    (PyStr.replace TAB " "
       (PyStr.replace LF " " (PyStr.strip race_td_text))).

(** The same sentence, on the record built from a row. *)
Definition full_name_collapsed (tds : list tag) : Prop :=
  ∀ self race_td,
    RiderResult_init tds = Ok self →
    tds !! 5%nat = Some race_td →
    self !! "full_name" = Some (VStr (full_name (text race_td))).

End Statements.

End Spec.

(** ** Concrete rows and side-tables used in the closed statements *)

Module Cases.
Import Sample.

(** The sample utilities with link decoders that return the target of the
    link they are given: a record then shows which link was decoded. *)
Definition link_target (a : link) : result (value Q) := Ok (VStr (href a)).

Definition tracing_utilities : Utilities Q := {|
  parse := sample_parse;
  float := sample_float;
  float_bool := sample_float_bool;
  race_link_to_race_id := link_target;
  race_link_to_stage_num := link_target;
  rider_link_to_id := sample_rider_link_to_id;
  img_to_country_code := sample_img_to_country_code;
  img_to_profile := sample_img_to_profile;
  colour_icons := sample_colour_icons;
  profile_icon_map := sample_profile_icon_map;
  uci_categories := [];
  championships_categories := [];
  U23_categories := [];
  one_day_categories := []
|}.

(** A name cell with whitespace around its text, a newline, a tab and a
    carriage return inside, and a second token. *)
Definition untidy_row : list tag :=
  [td "2019-07-14"; td "14.07"; td "2"; td ""; td "";
   Tag (String LF ("Tour de" +:+ String LF ("France " +:+ String CR
          ("|  Points" +:+ String TAB ("classification  " +:+ String LF "")))))
     [Link "race.php?r=17&y=2019"] [flag "FRA"];
   td "2.UWT"; td "-"].

(** A name cell whose text has a tab and a carriage return inside. *)
Definition tab_row : list tag :=
  [td "2019-04-14"; td "14.04"; td "3"; td ""; td "";
   Tag ("Paris" +:+ String TAB ("Roubaix" +:+ String CR "1"))
     [Link "race.php?r=8&y=2019"] [flag "FRA"];
   td "1.UWT"; td "400"].

(** A row of seven cells whose name cell has a link and no image. *)
Definition no_flag_row : list tag :=
  [td "2016-07-06"; td "06.07"; td "7"; td ""; td "";
   Tag "Local criterium" [Link "race.php?r=9001&y=2016"] [];
   td "NE"].

Definition info_of (rows : list (string * @info_row Q))
  : gmap string (@info_row Q) :=
  list_to_map rows.

(** A side-table of a prologue: the "What" value has no digit. *)
Definition prologue_info : gmap string (@info_row Q) :=
  info_of
    [("Nation", InfoRow (CellText "France") (Tag "France" [] [flag "FRA"]));
     ("What", InfoRow (CellText "Prologue") (Tag "Prologue" [] []))].

(** A side-table with neither "Nation" nor "Where". *)
Definition no_nation_info : gmap string (@info_row Q) :=
  info_of
    [("CAT", InfoRow (CellText "1.1") (Tag "1.1" [] []));
     ("What", InfoRow (CellText "Stage 5") (Tag "Stage 5" [] []))].

(** A side-table of a numbered stage. *)
Definition stage_info : gmap string (@info_row Q) :=
  info_of
    [("Nation", InfoRow (CellText "France") (Tag "France" [] [flag "FRA"]));
     ("What", InfoRow (CellText "Stage 5") (Tag "Stage 5" [] []))].

(** A side-table of a one-day race between two cities. *)
Definition paris_roubaix_info : gmap string (@info_row Q) :=
  info_of
    [("Nation", InfoRow (CellText "France") (Tag "France" [] [flag "FRA"]));
     ("Where", InfoRow (CellText "Paris -> Roubaix") (td "Paris -> Roubaix"))].

(** A side-table of a stage race, with its first and last day. *)
Definition tour_info : gmap string (@info_row Q) :=
  info_of
    [("Nation", InfoRow (CellText "France") (Tag "France" [] [flag "FRA"]));
     ("Date", InfoRow (CellText "01.07 - 23.07") (td "01.07 - 23.07"))].

(** A side-table of a race of the Games: two flags in the "Nation" row, the
    city after the second, and a "Where" row beside it. *)
Definition games_info : gmap string (@info_row Q) :=
  info_of
    [("Nation",
      InfoRow (CellText "Olympic Games Tokyo")
        (Tag "Olympic Games Tokyo" []
           [Img (Some "img/flag/OL.png") (TextSibling "Olympic Games");
            Img (Some "img/flag/JPN.png") (TextSibling " Tokyo ")]));
     ("Where", InfoRow (CellText "Musashino -> Fuji") (td "Musashino -> Fuji"))].

(** A side-table after a stage, with two of the leaders and a row that is
    no classification. *)
Definition leaders_info : gmap string (@info_row Q) :=
  info_of
    [("Nation", InfoRow (CellText "France") (Tag "France" [] [flag "FRA"]));
     ("Points",
      InfoRow (CellText "M. Cavendish")
        (Tag "M. Cavendish" [Link "rider.php?r=2294"] []));
     ("Leader",
      InfoRow (CellText "T. Pogacar") (Tag "T. Pogacar" [Link "rider.php?r=16973"] []));
     ("Winner",
      InfoRow (CellText "W. van Aert") (Tag "W. van Aert" [Link "rider.php?r=768"] []))].

(** A side-table whose value column is numeric: [pd.read_html] gives its
    cells as numbers, not as text. *)
Definition numeric_info : gmap string (@info_row Q) :=
  info_of
    [("Nation", InfoRow (CellNumber (VInt 33)) (Tag "33" [] [flag "FRA"]));
     ("Where", InfoRow (CellNumber (VInt 0)) (td "0"));
     ("Date", InfoRow (CellNumber (VInt 0)) (td "0"));
     ("What", InfoRow (CellNumber (VInt 5)) (td "5"))].

End Cases.

(** ** Auxiliary notions for the statements *)

Section Outcomes.
Context {F : Type} {U : Utilities F}.

(** The colour token [col], followed by a dot, does not occur in [icon]. *)
Definition no_match (icon col : string) : Prop :=
  PyStr.contains (col +:+ ".") icon = false.

(** An entry of the classification leaders: a row of the side-table and
    the rider of its link. *)
Definition leader_of_row (info : gmap string (@info_row F))
    (entry : string * value F) : Prop :=
  ∃ row, info !! entry.1 = Some row
         ∧ rider_link_to_id (tag_a (tr row)) = Ok entry.2.

(** A date text in three pieces, and a piece without a dash. *)
Definition dashed (y m d : string) : string :=
  y +:+ "-" +:+ m +:+ "-" +:+ d.

(** A piece of text without the character [sep]. *)
Definition free_of_sep (sep : ascii) (s : string) : bool :=
  PyStr.forallb (λ c, negb (Ascii.eqb c sep)) s.

Definition no_dash (s : string) : bool := free_of_sep "-" s.

(** Line 180 and 181: ['01' if not int(x) else x]. *)
Definition first_if_zero (v : Z) (x : string) : string :=
  if v =? 0 then "01" else x.

(** What line 197 does to one character: a newline becomes a space, a
    tab and a carriage return are dropped. *)
Definition newline_to_space (c : ascii) : ascii :=
  if Ascii.eqb c LF then " "%char else c.

Definition tab_or_cr (c : ascii) : bool :=
  Ascii.eqb c TAB || Ascii.eqb c CR.

Definition line_break (c : ascii) : bool :=
  Ascii.eqb c LF || Ascii.eqb c TAB || Ascii.eqb c CR.

(** The attributes assigned before the name cell is looked at. *)
Definition basic_details (d : date) (r g ic : value F) (cat : string)
    (up : value F) : gmap string (value F) :=
  <["uci_points" := up]>
    (<["cat" := VStr cat]>
       (<["icon" := ic]>
          (<["gc_standing" := g]>
             (<["result" := r]> (<["date" := VDate d]> ∅))))).

(** The attributes every branch of the name cell assigns. *)
Definition named (race_id cc : value F) (race_td : tag) (name : string)
    (self : gmap string (value F)) : gmap string (value F) :=
  <["name" := VStr name]>
    (<["full_name" := VStr (full_name_of race_td)]>
       (<["race_country_code" := cc]> (<["race_id" := race_id]> self))).

(** The four outcomes of the cascade on the name cell. *)
Inductive race_td_outcome (race_td : tag) (l0 : link)
    (base : gmap string (value F)) : gmap string (value F) → Prop :=
  | Championship i1 ecc city :
      length (find_all_img race_td) = 2%nat →
      find_all_img race_td !! 1%nat = Some i1 →
      img_to_country_code (Some i1) = Ok ecc →
      tokens_of (full_name_of race_td) !! 1%nat = Some city →
      race_td_outcome race_td l0 base
        (<["edition_city" := VStr city]>
           (<["edition_country_code" := ecc]> base))
  | Stage sn :
      length (find_all_img race_td) ≠ 2%nat →
      length (find_all_a race_td) = 2%nat →
      race_link_to_stage_num l0 = Ok sn →
      race_td_outcome race_td l0 base (<["stage_num" := sn]> base)
  | Classification cl :
      length (find_all_img race_td) ≠ 2%nat →
      length (find_all_a race_td) ≠ 2%nat →
      length (tokens_of (full_name_of race_td)) = 2%nat →
      tokens_of (full_name_of race_td) !! 1%nat = Some cl →
      race_td_outcome race_td l0 base (<["classification" := VStr cl]> base)
  | Plain :
      length (find_all_img race_td) ≠ 2%nat →
      length (find_all_a race_td) ≠ 2%nat →
      length (tokens_of (full_name_of race_td)) ≠ 2%nat →
      race_td_outcome race_td l0 base base.

End Outcomes.

(** ** [RiderResultsTable.__init__] (lines 149-152)

    The constructor's parameter is [table], and its body reads the name
    [results_table], which the constructor does not bind: the name is looked
    up in the enclosing scope. [scope] is [None] when that scope has no such
    name and [Some t] when it binds the name to [t], the rows of the table's
    body, each the list of its cells, or [None] for a missing table. The
    result is [self.results]: the objects whose [vars] are not empty. *)

Section ResultsTable.
Context {F : Type} {U : Utilities F}.

Definition RiderResultsTable_init
    (scope : option (option (list (list tag))))
    (table : option (list (list tag)))
  : result (list (gmap string (value F))) :=
  match scope with
  | None => Raise NameError
  | Some results_table =>
      match results_table with
      | Some rows =>
          results ← mapM RiderResult_init rows;
          Ok (filter (λ x : gmap string (value F), size x ≠ 0%nat) results)
      | None => Ok []
      end
  end.

(** The attributes the side-table extractor assigns. *)
Definition race_info_keys : gset string :=
  {[ "nation"; "start_city"; "end_city"; "start_date"; "end_date";
     "distance"; "cat"; "stage_num"; "profile"; "classification_leaders" ]}.

(** The attributes every record of a row with a result has. *)
Definition basic_keys : gset string :=
  {[ "date"; "result"; "gc_standing"; "icon"; "cat"; "uci_points";
     "race_id"; "race_country_code"; "full_name"; "name" ]}.

End ResultsTable.

(** * Properties *)

(** ** The error monad *)

Lemma bind_Ok {A B} (m : result A) (k : A → result B) (b : B) :
  m ≫= k = Ok b ↔ ∃ a, m = Ok a ∧ k a = Ok b.
Proof.
  split.
  - destruct m as [a|e]; [intros H; by exists a | discriminate].
  - by intros (a & -> & Hk).
Qed.

Lemma subscript_Ok {A} (l : list A) (i : nat) (x : A) :
  subscript l i = Ok x ↔ l !! i = Some x.
Proof. unfold subscript. destruct (l !! i); split; congruence. Qed.

Lemma getitem_Ok {A} (d : gmap string A) (k : string) (x : A) :
  getitem d k = Ok x ↔ d !! k = Some x.
Proof. unfold getitem. destruct (d !! k); split; congruence. Qed.

Lemma has_key_true {A} (d : gmap string A) (k : string) :
  has_key d k = true ↔ is_Some (d !! k).
Proof. unfold has_key. by rewrite bool_decide_eq_true. Qed.

Lemma has_key_false {A} (d : gmap string A) (k : string) :
  has_key d k = false ↔ d !! k = None.
Proof.
  unfold has_key. rewrite bool_decide_eq_false. by rewrite eq_None_not_Some.
Qed.

(** Splits a hypothesis [x ← m; k = Ok r] into its two steps. *)
Ltac inv_bind H :=
  let a := fresh "a" in
  let Ha := fresh "Hstep" in
  apply bind_Ok in H as (a & Ha & H).

(** ** The race-type flags *)

Section FlagProperties.
Context {F : Type} {U : Utilities F}.
Variables self_cat self_name : string.
Variable self_icon : option string.

Abbreviation series := (results_series self_cat self_name self_icon).

Lemma series_jersey_colour :
  series !! "jersey_colour" = Some (jersey_colour self_icon).
Proof. unfold results_series. by simplify_map_eq. Qed.

Lemma series_profile :
  series !! "profile" = Some (opt_str (profile self_icon)).
Proof. unfold results_series. by simplify_map_eq. Qed.

Lemma series_ttt : series !! "ttt" = Some (ttt self_icon).
Proof. unfold results_series. by simplify_map_eq. Qed.

Lemma series_itt : series !! "itt" = Some (itt self_icon).
Proof. unfold results_series. by simplify_map_eq. Qed.

Lemma series_tt : series !! "tt" = Some (tt self_icon).
Proof. unfold results_series. by simplify_map_eq. Qed.

(** [itt] is absent or a boolean; it is absent exactly when the profile is
    not known. *)
Lemma itt_cases :
  (itt self_icon = VNone ∧ ttt self_icon = VBool false)
  ∨ ∃ b, itt self_icon = VBool b.
Proof.
  unfold itt, ttt, if_profile.
  destruct (profile self_icon) as [p|]; [|by left].
  destruct p as [|c p]; cbn; [by left | right; eauto].
Qed.

End FlagProperties.

(** C1 (as stated in the specification, refuted). A result without icon has
    an absent [itt] and a False [ttt], and its [tt] is False, not absent. *)
Lemma tt_absent_propagation_fails :
  ¬ Spec.tt_absent_propagation
      (results_series (U:=Sample.utilities) "2.UWT" "Tour de France" None).
Proof.
  intros [Habsent _].
  rewrite series_itt, series_ttt, series_tt in Habsent.
  specialize (Habsent eq_refl eq_refl). discriminate Habsent.
Qed.

(** C1 (amended). In every series of flags [tt] is Python's [itt or ttt]:
    [itt] when it is True, else [ttt]. An absent [itt] comes with a False
    [ttt] and gives a False [tt]; a False [itt] with a True [ttt] gives
    True; [tt] is never absent. *)
Theorem tt_is_itt_or_ttt {F : Type} {U : Utilities F}
    (self_cat self_name : string) (self_icon : option string) :
  ∃ (i : value F) (t : bool) (r : value F),
    results_series self_cat self_name self_icon !! "itt" = Some i
    ∧ results_series self_cat self_name self_icon !! "ttt" = Some (VBool t)
    ∧ results_series self_cat self_name self_icon !! "tt" = Some r
    ∧ r = (if truthy i then i else VBool t)
    ∧ (i = VNone → t = false ∧ r = VBool false)
    ∧ (i = VBool false → t = true → r = VBool true)
    ∧ r ≠ VNone.
Proof.
  exists (itt self_icon), (bool_decide (profile self_icon = Some "TTT")),
    (tt self_icon).
  rewrite series_itt, series_ttt, series_tt.
  split; [done|]. split; [done|]. split; [done|].
  split; [done|].
  unfold tt, py_or.
  destruct (itt_cases self_icon) as [[-> Ht]|[b ->]].
  - unfold ttt in *. injection Ht as ->. cbn. by split_and!.
  - unfold ttt. destruct b; cbn; split_and!; try done.
    by intros _ ->.
Qed.

(** *** Jersey colour and profile *)

Lemma capitalize_nonempty (s : string) : s ≠ "" → PyStr.capitalize s ≠ "".
Proof. by destruct s. Qed.

Lemma contains_in_empty (col : string) :
  PyStr.contains (col +:+ ".") "" = false.
Proof. by destruct col. Qed.

Section FirstColour.
Context {F : Type} {U : Utilities F}.
Variable icon : string.

(** The loop returns the capitalized first colour that occurs in the icon. *)
Lemma first_colour_Some (cols : list string) (c : string) :
  first_colour icon cols = Some c ↔
  ∃ pre col post,
    cols = pre ++ col :: post ∧ Forall (no_match icon) pre
    ∧ PyStr.contains (col +:+ ".") icon = true ∧ c = PyStr.capitalize col.
Proof.
  induction cols as [|x cols IH]; cbn.
  - split; [discriminate|]. intros (pre & col & post & Heq & _).
    by destruct pre.
  - destruct (PyStr.contains (x +:+ ".") icon) eqn:Hx.
    + split.
      * intros [= <-]. exists [], x, cols. by split_and!.
      * intros (pre & col & post & Heq & Hpre & Hcol & ->).
        destruct pre as [|y pre]; simplify_eq/=; [done|].
        apply Forall_cons in Hpre as [Hy _]. unfold no_match in Hy.
        congruence.
    + rewrite IH. split.
      * intros (pre & col & post & -> & Hpre & Hcol & ->).
        exists (x :: pre), col, post. split_and!; try done.
        by apply Forall_cons.
      * intros (pre & col & post & Heq & Hpre & Hcol & ->).
        destruct pre as [|y pre]; simplify_eq/=; [congruence|].
        apply Forall_cons in Hpre as [_ Hpre].
        exists pre, col, post. by split_and!.
Qed.

Lemma first_colour_None (cols : list string) :
  first_colour icon cols = None ↔ Forall (no_match icon) cols.
Proof.
  induction cols as [|x cols IH]; cbn; [done|].
  rewrite Forall_cons, <- IH. unfold no_match.
  destruct (PyStr.contains (x +:+ ".") icon); intuition congruence.
Qed.

End FirstColour.

(** C9. With colour tokens that are not empty, [jersey_colour] and [profile]
    are never both present in the series of flags; [jersey_colour] is the
    capitalized first token of [colour_icons] that, followed by a dot,
    occurs in the icon, and [profile] is the entry of the icon in the
    profile-icon table when no jersey colour was found. *)
Theorem jersey_colour_profile_exclusive {F : Type} {U : Utilities F}
    (self_cat self_name : string) (self_icon : option string) :
  "" ∉ colour_icons →
  ∃ j p : value F,
    results_series self_cat self_name self_icon !! "jersey_colour" = Some j
    ∧ results_series self_cat self_name self_icon !! "profile" = Some p
    ∧ (j = VNone ∨ p = VNone)
    ∧ (j = VNone ∨ ∃ c, j = VStr c)
    ∧ (∀ c, j = VStr c ↔
         ∃ icon pre col post,
           self_icon = Some icon ∧ colour_icons = pre ++ col :: post
           ∧ Forall (no_match icon) pre
           ∧ PyStr.contains (col +:+ ".") icon = true
           ∧ c = PyStr.capitalize col)
    ∧ (j = VNone → p = opt_str (icon ← self_icon; profile_icon_map !! icon)).
Proof.
  intros Hne.
  exists (jersey_colour self_icon), (opt_str (profile self_icon)).
  rewrite series_jersey_colour, series_profile.
  split; [done|]. split; [done|].
  unfold profile, jersey_colour, icon_truthy.
  destruct self_icon as [icon|]; cbn.
  2:{ split_and!; auto. intros c. split; [done|]. by intros (?&?&?&?&?&?). }
  destruct (String.eqb_spec icon "") as [->|Hicon]; cbn.
  { split_and!; auto. intros c. split; [done|].
    intros (i & pre & col & post & [= <-] & _ & _ & Hc & _).
    by rewrite contains_in_empty in Hc. }
  destruct (first_colour icon colour_icons) as [c0|] eqn:Hfirst; cbn.
  - pose proof Hfirst as Hdec.
    apply first_colour_Some in Hdec as (pre & col & post & Hcols & Hpre & Hcol & ->).
    assert (col ≠ "") as Hcolne.
    { intros ->. apply Hne. rewrite Hcols. set_solver. }
    destruct (String.eqb_spec (PyStr.capitalize col) "") as [Hcap|_];
      [by apply capitalize_nonempty in Hcap|]. cbn.
    split_and!; eauto; [|done].
    intros c. split.
    + intros [= <-]. exists icon, pre, col, post. by split_and!.
    + intros (i & pre' & col' & post' & [= <-] & Hcols' & Hpre' & Hcol' & ->).
      f_equal.
      assert (first_colour icon colour_icons = Some (PyStr.capitalize col'))
        as Hagain by (apply first_colour_Some; eauto 10).
      congruence.
  - split_and!; auto. intros c. split; [done|].
    intros (i & pre & col & post & [= <-] & Hcols & Hpre & Hcol & ->).
    assert (first_colour icon colour_icons = Some (PyStr.capitalize col))
      as Hagain by (apply first_colour_Some; eauto 10).
    congruence.
Qed.

Lemma jersey_colour_profile_exclusive_witness :
  ("" ∉ @colour_icons Q Sample.utilities)
  ∧ ∃ j p : value Q,
      results_series (U:=Sample.utilities) "2.UWT" "Tour de France"
        (Some "lightblue.png") !! "jersey_colour" = Some j
      ∧ results_series (U:=Sample.utilities) "2.UWT" "Tour de France"
          (Some "lightblue.png") !! "profile" = Some p
      ∧ (j = VNone ∨ p = VNone).
Proof.
  assert ("" ∉ @colour_icons Q Sample.utilities) as Hne
    by (apply (bool_decide_unpack _); vm_compute; exact I).
  split; [exact Hne|].
  destruct (jersey_colour_profile_exclusive (U:=Sample.utilities)
              "2.UWT" "Tour de France" (Some "lightblue.png") Hne)
    as (j & p & Hj & Hp & Hex & _).
  exists j, p. by split_and!.
Defined.

(** ** The row builder *)

Section RowBuilder.
Context {F : Type} {U : Utilities F}.

Lemma parse_race_td_Ok (race_td : tag) (self0 self : gmap string (value F)) :
  parse_race_td race_td self0 = Ok self →
  ∃ l0 race_id i0 cc name,
    find_all_a race_td !! 0%nat = Some l0
    ∧ race_link_to_race_id l0 = Ok race_id
    ∧ find_all_img race_td !! 0%nat = Some i0
    ∧ img_to_country_code (Some i0) = Ok cc
    ∧ tokens_of (full_name_of race_td) !! 0%nat = Some name
    ∧ race_td_outcome race_td l0 (named race_id cc race_td name self0) self.
Proof.
  unfold parse_race_td. intros H.
  inv_bind H. apply subscript_Ok in Hstep as Hl0.
  inv_bind H. rename Hstep0 into Hid.
  inv_bind H. apply subscript_Ok in Hstep0 as Hi0.
  inv_bind H. rename Hstep1 into Hcc.
  inv_bind H. apply subscript_Ok in Hstep1 as Ht0.
  exists a, a0, a1, a2, a3. split_and!; try done.
  fold (named a0 a2 race_td a3 self0) in H.
  destruct (length (find_all_img race_td) =? 2)%nat eqn:Himgs.
  { apply Nat.eqb_eq in Himgs.
    inv_bind H. apply subscript_Ok in Hstep2.
    inv_bind H. inv_bind H. apply subscript_Ok in Hstep4.
    injection H as <-. by eapply Championship. }
  apply Nat.eqb_neq in Himgs.
  destruct (length (find_all_a race_td) =? 2)%nat eqn:Hlinks.
  { apply Nat.eqb_eq in Hlinks.
    inv_bind H. apply subscript_Ok in Hstep2.
    inv_bind H. injection H as <-.
    assert (a4 = a) as -> by congruence. by apply Stage. }
  apply Nat.eqb_neq in Hlinks.
  destruct (length (tokens_of (full_name_of race_td)) =? 2)%nat eqn:Htok.
  { apply Nat.eqb_eq in Htok.
    inv_bind H. apply subscript_Ok in Hstep2.
    injection H as <-. by apply Classification. }
  apply Nat.eqb_neq in Htok. injection H as <-. by apply Plain.
Qed.

Local Arguments parse_race_date : simpl never.
Local Arguments parse_result : simpl never.
Local Arguments parse_gc_standing : simpl never.
Local Arguments parse_icon : simpl never.
Local Arguments parse_uci_points : simpl never.
Local Arguments parse_race_td : simpl never.

Lemma RiderResult_init_Ok (tds : list tag) (self : gmap string (value F)) :
  RiderResult_init tds = Ok self →
  (7 ≤ length tds)%nat →
  ∃ date date_alt result gc icon race_td cat extra d r g ic up,
    tds = [date; date_alt; result; gc; icon; race_td; cat] ++ extra
    ∧ (length extra ≤ 1)%nat
    ∧ parse_race_date (text date) = Ok d
    ∧ parse_result (text result) = Ok r
    ∧ parse_gc_standing (text gc) = Ok g
    ∧ parse_icon icon = Ok ic
    ∧ parse_uci_points (head extra) = Ok up
    ∧ parse_race_td race_td (basic_details d r g ic (text cat) up) = Ok self.
Proof.
  intros H Hlen. unfold RiderResult_init in H.
  destruct (length tds <? 7)%nat eqn:Hlt; [apply Nat.ltb_lt in Hlt; lia|].
  destruct tds as [|t0 [|t1 [|t2 [|t3 [|t4 [|t5 [|t6 extra]]]]]]];
    cbn in Hlen; try lia.
  exists t0, t1, t2, t3, t4, t5, t6, extra.
  destruct extra as [|u [|u' extra]]; cbn in H; [| |discriminate].
  - inv_bind H. inv_bind H. inv_bind H. inv_bind H. inv_bind H.
    exists a, a0, a1, a2, a3. cbn. split_and!; try done. lia.
  - inv_bind H. inv_bind H. inv_bind H. inv_bind H. inv_bind H.
    exists a, a0, a1, a2, a3. cbn. by split_and!.
Qed.

(** A record built from a row with a result: its basic details, the name
    attributes, and one outcome of the cascade. *)
Lemma RiderResult_init_built (tds : list tag) (race_td : tag)
    (self : gmap string (value F)) :
  RiderResult_init tds = Ok self →
  (7 ≤ length tds)%nat →
  tds !! 5%nat = Some race_td →
  ∃ cat d r g ic up l0 race_id i0 cc name,
    parse_uci_points (tds !! 7%nat) = Ok up
    ∧ (length tds ≤ 8)%nat
    ∧ find_all_a race_td !! 0%nat = Some l0
    ∧ find_all_img race_td !! 0%nat = Some i0
    ∧ img_to_country_code (Some i0) = Ok cc
    ∧ tokens_of (full_name_of race_td) !! 0%nat = Some name
    ∧ race_td_outcome race_td l0
        (named race_id cc race_td name (basic_details d r g ic cat up)) self.
Proof.
  intros H Hlen Htd.
  apply RiderResult_init_Ok in H
    as (date & date_alt & result & gc & icon & race_td' & cat & extra & d
        & r & g & ic & up & -> & Hextra & _ & _ & _ & _ & Hup & H); [|done].
  cbn in Htd. injection Htd as ->.
  apply parse_race_td_Ok in H
    as (l0 & race_id & i0 & cc & name & Hl0 & _ & Hi0 & Hcc & Hname & H).
  exists (text cat), d, r, g, ic, up, l0, race_id, i0, cc, name.
  split_and!; try done.
  - by destruct extra.
  - cbn. lia.
Qed.

End RowBuilder.

Section Cascade.
Context {F : Type} {U : Utilities F}.
Variables (d : date) (r g ic : value F) (cat : string) (up : value F).
Variables (race_id cc : value F) (race_td : tag) (name : string).

Abbreviation base :=
(named race_id cc race_td name (basic_details d r g ic cat up)).

Lemma base_no_variant :
base !! "edition_country_code" = None ∧ base !! "edition_city" = None
∧ base !! "stage_num" = None ∧ base !! "classification" = None.
Proof. unfold named, basic_details. split_and!; by simplify_map_eq. Qed.

Lemma base_uci_points : base !! "uci_points" = Some up.
Proof. unfold named, basic_details. by simplify_map_eq. Qed.

Lemma base_full_name : base !! "full_name" = Some (VStr (full_name_of race_td)).
Proof. unfold named, basic_details. by simplify_map_eq. Qed.

Lemma base_name : base !! "name" = Some (VStr name).
Proof. unfold named, basic_details. by simplify_map_eq. Qed.

Lemma base_race_country_code : base !! "race_country_code" = Some cc.
Proof. unfold named, basic_details. by simplify_map_eq. Qed.

(** The attributes of [base] are in every outcome of the cascade. *)
Lemma outcome_keeps (l0 : link) (self : gmap string (value F)) (k : string) :
race_td_outcome race_td l0 base self →
k ≠ "edition_country_code" → k ≠ "edition_city" →
k ≠ "stage_num" → k ≠ "classification" →
self !! k = base !! k.
Proof.
intros Hout ????. destruct Hout; by rewrite ?lookup_insert_ne.
Qed.

End Cascade.

(** C2. In a record built from a row whose name cell has exactly two images,
    [edition_country_code] is decoded from the second image, [edition_city]
    is the second token of the name, and neither [stage_num] nor
    [classification] is assigned, whatever the number of links and of
    tokens. Without two images, two links make a stage result and no
    classification; a second token names a classification only when there
    are neither two images nor two links. *)
Theorem race_name_cascade {F : Type} {U : Utilities F}
    (tds : list tag) (race_td : tag) (self : gmap string (value F)) :
  RiderResult_init tds = Ok self →
  (7 ≤ length tds)%nat →
  tds !! 5%nat = Some race_td →
  (length (find_all_img race_td) = 2%nat →
     (∃ second ecc,
        find_all_img race_td !! 1%nat = Some second
        ∧ img_to_country_code (Some second) = Ok ecc
        ∧ self !! "edition_country_code" = Some ecc)
     ∧ (∃ city,
          tokens_of (full_name_of race_td) !! 1%nat = Some city
          ∧ self !! "edition_city" = Some (VStr city))
     ∧ self !! "stage_num" = None
     ∧ self !! "classification" = None)
  ∧ (length (find_all_img race_td) ≠ 2%nat →
     length (find_all_a race_td) = 2%nat →
     is_Some (self !! "stage_num")
     ∧ self !! "classification" = None
     ∧ self !! "edition_country_code" = None
     ∧ self !! "edition_city" = None)
  ∧ (length (find_all_img race_td) ≠ 2%nat →
     length (find_all_a race_td) ≠ 2%nat →
     self !! "classification" =
       (if decide (length (tokens_of (full_name_of race_td)) = 2%nat)
        then VStr <$> tokens_of (full_name_of race_td) !! 1%nat
        else None)
     ∧ self !! "stage_num" = None
     ∧ self !! "edition_country_code" = None
     ∧ self !! "edition_city" = None).
Proof.
  intros Hinit Hlen Htd.
  destruct (RiderResult_init_built tds race_td self Hinit Hlen Htd)
    as (cat & d & r & g & ic & up & l0 & race_id & i0 & cc & name
        & _ & _ & _ & _ & _ & _ & Hout).
  destruct (base_no_variant d r g ic cat up race_id cc race_td name)
    as (Hecc0 & Hcity0 & Hsn0 & Hcl0).
  destruct Hout as [i1 ecc city Himgs Hi1 Hecc Hcity
                   |sn Himgs Hlinks Hsn
                   |cl Himgs Hlinks Htok Hcl
                   |Himgs Hlinks Htok];
    (split_and!; [intros Himgs'|intros Himgs' Hlinks'|intros Himgs' Hlinks']);
    try (exfalso; congruence).
  - split_and!; [exists i1, ecc; split_and!; [done..|]|exists city; split; [done|]|..];
      rewrite ?lookup_insert_ne by done;
      first [by rewrite lookup_insert_eq | done].
  - split_and!; rewrite ?lookup_insert_ne by done;
      first [rewrite lookup_insert_eq; by eauto | done].
  - rewrite decide_True by done. rewrite Hcl.
    split_and!; rewrite ?lookup_insert_ne by done;
      first [by rewrite lookup_insert_eq | done].
  - rewrite decide_False by done. by split_and!.
Qed.

Lemma race_name_cascade_witness :
  ∃ self : gmap string (value Q),
    RiderResult_init (U:=Sample.utilities) Sample.championship_row = Ok self
    ∧ (7 ≤ length Sample.championship_row)%nat
    ∧ self !! "edition_country_code" = Some (VStr "ITA")
    ∧ self !! "edition_city" = Some (VStr "Imola")
    ∧ self !! "stage_num" = None
    ∧ self !! "classification" = None.
Proof.
  assert (∃ r, RiderResult_init (U:=Sample.utilities) Sample.championship_row = Ok r)
    as [self Hinit] by (eexists; reflexivity).
  exists self. split; [exact Hinit|].
  assert (7 ≤ length Sample.championship_row)%nat as Hlen by (cbn; lia).
  split; [exact Hlen|].
  destruct (race_name_cascade (U:=Sample.utilities) Sample.championship_row
              _ self Hinit Hlen eq_refl) as [Hchamp _].
  destruct (Hchamp eq_refl)
    as ((second & ecc & Hsecond & Hecc & Hself) & (city & Hcity & Hself')
        & Hsn & Hcl).
  injection Hsecond as <-. injection Hecc as <-. injection Hcity as <-.
  split_and!; assumption.
Defined.

(** The race identifier of a record is decoded from the first link of the
    name cell. *)
Lemma RiderResult_init_race_id {F : Type} {U : Utilities F}
    (tds : list tag) (race_td : tag) (self : gmap string (value F)) :
  RiderResult_init tds = Ok self →
  (7 ≤ length tds)%nat →
  tds !! 5%nat = Some race_td →
  ∃ first race_id,
    find_all_a race_td !! 0%nat = Some first
    ∧ race_link_to_race_id first = Ok race_id
    ∧ self !! "race_id" = Some race_id.
Proof.
  intros H Hlen Htd.
  apply RiderResult_init_Ok in H
    as (date & date_alt & result & gc & icon & race_td' & cat & extra & d
        & r & g & ic & up & -> & Hextra & _ & _ & _ & _ & Hup & H); [|done].
  cbn in Htd. injection Htd as ->.
  apply parse_race_td_Ok in H
    as (l0 & race_id & i0 & cc & name & Hl0 & Hid & _ & _ & _ & Hout).
  exists l0, race_id. split_and!; [done..|].
  rewrite (outcome_keeps _ _ _ _ _ _ _ _ _ _ _ _ _ Hout) by done.
  unfold named, basic_details. by simplify_map_eq.
Qed.

(** C5 (as stated in the specification, refuted). [utilities.py] is not part
    of the source, so the decoder of this statement only tells the links
    apart: it returns the target of the link it is given. In the record of
    the sample stage row [stage_num] is then the target of the first link of
    the name cell, not that of the second. *)
Lemma stage_from_second_link_fails :
  ¬ Spec.stage_from_second_link (U:=Cases.tracing_utilities) Sample.stage_row.
Proof.
  intros Hspec.
  eassert (RiderResult_init (U:=Cases.tracing_utilities) Sample.stage_row
           = Ok _) as Hinit by reflexivity.
  eapply (Hspec _ _ (Link "race.php?r=17&y=2016&e=5")
            (VStr "race.php?r=17&y=2016&e=5")) in Hinit;
    [|reflexivity|reflexivity|cbn; lia|reflexivity|reflexivity].
  discriminate Hinit.
Qed.

(** Whatever the decoder, the statement of the specification holds of a
    stage row that is built only if the decoder gives the same result on the
    two links of its name cell. *)
Lemma second_link_needs_same_decoding {F : Type} {U : Utilities F}
    (tds : list tag) (race_td : tag) (self : gmap string (value F))
    (first second : link) (a b : value F) :
  Spec.stage_from_second_link tds →
  RiderResult_init tds = Ok self →
  (7 ≤ length tds)%nat →
  tds !! 5%nat = Some race_td →
  length (find_all_img race_td) ≠ 2%nat →
  find_all_a race_td = [first; second] →
  race_link_to_stage_num first = Ok a →
  race_link_to_stage_num second = Ok b →
  a = b.
Proof.
  intros Hspec Hinit Hlen Htd Himgs Hlinks Ha Hb.
  assert (self !! "stage_num" = Some b) as Hsecond.
  { eapply Hspec; try done; by rewrite Hlinks. }
  destruct (RiderResult_init_built tds race_td self Hinit Hlen Htd)
    as (cat & d & r & g & ic & up & l0 & race_id & i0 & cc & name
        & _ & _ & Hl0 & _ & _ & _ & Hout).
  rewrite Hlinks in Hl0. injection Hl0 as <-.
  destruct Hout as [| sn _ _ Hsn | Hlinks' |Hlinks'];
    [done| |by rewrite Hlinks in *..].
  rewrite lookup_insert_eq in Hsecond. congruence.
Qed.

(** C5 (amended). In a record built from a row whose name cell has two links
    and not two images, [stage_num] is decoded from the first link of the
    name cell, the link the race identifier is decoded from. *)
Theorem stage_from_first_link {F : Type} {U : Utilities F}
    (tds : list tag) (race_td : tag) (self : gmap string (value F)) :
  RiderResult_init tds = Ok self →
  (7 ≤ length tds)%nat →
  tds !! 5%nat = Some race_td →
  length (find_all_a race_td) = 2%nat →
  length (find_all_img race_td) ≠ 2%nat →
  ∃ first sn race_id,
    find_all_a race_td !! 0%nat = Some first
    ∧ race_link_to_stage_num first = Ok sn
    ∧ self !! "stage_num" = Some sn
    ∧ race_link_to_race_id first = Ok race_id
    ∧ self !! "race_id" = Some race_id.
Proof.
  intros Hinit Hlen Htd Hlinks Himgs.
  destruct (RiderResult_init_race_id tds race_td self Hinit Hlen Htd)
    as (first & rid & Hfirst & Hrid & Hself).
  destruct (RiderResult_init_built tds race_td self Hinit Hlen Htd)
    as (cat & d & r & g & ic & up & l0 & race_id & i0 & cc & name
        & _ & _ & Hl0 & _ & _ & _ & Hout).
  assert (l0 = first) as -> by congruence.
  destruct Hout as [| sn _ _ Hsn | |]; try done.
  exists first, sn, rid. split_and!; [done..| |done|done].
  by rewrite lookup_insert_eq.
Qed.

Lemma stage_from_first_link_witness :
  ∃ self : gmap string (value Q),
    RiderResult_init (U:=Sample.utilities) Sample.stage_row = Ok self
    ∧ self !! "stage_num" = Some VNone
    ∧ race_link_to_stage_num (Utilities:=Sample.utilities)
        (Link "race.php?r=17&y=2016") = Ok VNone
    ∧ self !! "race_id" = Some (VInt 17).
Proof.
  assert (∃ r, RiderResult_init (U:=Sample.utilities) Sample.stage_row = Ok r)
    as [self Hinit] by (eexists; reflexivity).
  exists self. split; [exact Hinit|].
  edestruct (stage_from_first_link (U:=Sample.utilities) Sample.stage_row)
    as (first & sn & rid & Hfirst & Hsn & Hself & Hrid & Hself');
    [exact Hinit|cbn; lia|reflexivity|reflexivity|cbn; lia|].
  injection Hfirst as <-. injection Hsn as <-. injection Hrid as <-.
  split; [exact Hself|]. split; [reflexivity|exact Hself'].
Defined.

(** C8. In a record built from a row of exactly seven cells [uci_points] is
    [None]; in one built from a row of eight cells it is the integer zero
    when the text of the eighth cell is a dash and the float parsed from
    that text otherwise. *)
Theorem uci_points_by_layout {F : Type} {U : Utilities F}
    (tds : list tag) (self : gmap string (value F)) :
  RiderResult_init tds = Ok self →
  (length tds = 7%nat → self !! "uci_points" = Some VNone)
  ∧ (∀ uci, length tds = 8%nat → tds !! 7%nat = Some uci →
       (text uci = "-" → self !! "uci_points" = Some (VInt 0))
       ∧ (text uci ≠ "-" →
          ∃ f, float (text uci) = Ok f
               ∧ self !! "uci_points" = Some (VFloat f))).
Proof.
  intros Hinit.
  assert (∀ race_td uci, (7 ≤ length tds)%nat → tds !! 5%nat = Some race_td →
            tds !! 7%nat = uci →
            ∃ up, parse_uci_points uci = Ok up
                  ∧ self !! "uci_points" = Some up) as Hup.
  { intros race_td uci Hlen Htd <-.
    destruct (RiderResult_init_built tds race_td self Hinit Hlen Htd)
      as (cat & d & r & g & ic & up & l0 & race_id & i0 & cc & name
          & Hup & _ & _ & _ & _ & _ & Hout).
    exists up. split; [done|].
    rewrite (outcome_keeps _ _ _ _ _ _ _ _ _ _ _ _ _ Hout) by done.
    apply base_uci_points. }
  split.
  - intros Hlen.
    destruct (lookup_lt_is_Some_2 tds 5) as [race_td Htd]; [lia|].
    destruct (Hup race_td None) as (up & Hparse & Hself); [lia|done|..].
    { apply lookup_ge_None. lia. }
    cbn in Hparse. by injection Hparse as <-.
  - intros uci Hlen Huci.
    destruct (lookup_lt_is_Some_2 tds 5) as [race_td Htd]; [lia|].
    destruct (Hup race_td (Some uci)) as (up & Hparse & Hself);
      [lia|done|done|].
    unfold parse_uci_points in Hparse.
    destruct (String.eqb_spec (text uci) "-") as [Hdash|Hdash].
    + injection Hparse as <-. split; [done|]. by intros [].
    + split; [done|]. intros _. inv_bind Hparse. injection Hparse as <-.
      by exists a.
Qed.

Lemma uci_points_by_layout_witness :
  (∃ self : gmap string (value Q),
     RiderResult_init (U:=Sample.utilities) Sample.stage_row = Ok self
     ∧ self !! "uci_points" = Some VNone)
  ∧ (∃ self : gmap string (value Q),
       RiderResult_init (U:=Sample.utilities) Sample.championship_row = Ok self
       ∧ self !! "uci_points" = Some (VInt 0))
  ∧ (∃ self : gmap string (value Q),
       RiderResult_init (U:=Sample.utilities) Cases.tab_row = Ok self
       ∧ self !! "uci_points" = Some (VFloat (inject_Z 400))).
Proof.
  split_and!.
  - assert (∃ r, RiderResult_init (U:=Sample.utilities) Sample.stage_row = Ok r)
      as [self Hinit] by (eexists; reflexivity).
    exists self. split; [exact Hinit|].
    exact (proj1 (uci_points_by_layout _ self Hinit) eq_refl).
  - assert (∃ r, RiderResult_init (U:=Sample.utilities) Sample.championship_row = Ok r)
      as [self Hinit] by (eexists; reflexivity).
    exists self. split; [exact Hinit|].
    exact (proj1 (proj2 (uci_points_by_layout _ self Hinit) _ eq_refl eq_refl)
             eq_refl).
  - assert (∃ r, RiderResult_init (U:=Sample.utilities) Cases.tab_row = Ok r)
      as [self Hinit] by (eexists; reflexivity).
    exists self. split; [exact Hinit|].
    destruct (proj2 (proj2 (uci_points_by_layout _ self Hinit) _ eq_refl
                       eq_refl)) as (f & Hf & Hself); [discriminate|].
    injection Hf as <-. exact Hself.
Defined.

(** C10 (the code at the failing input). A row of seven cells whose name
    cell has a link and no image: [imgs[0]] raises [IndexError] and no
    record is built. *)
Theorem no_flag_row_raises :
  RiderResult_init (U:=Sample.utilities) Cases.no_flag_row = Raise IndexError.
Proof. reflexivity. Qed.

(** Whatever the utilities, a row with a result whose name cell has no image
    never yields a record. *)
Lemma no_image_no_record {F : Type} {U : Utilities F}
    (tds : list tag) (race_td : tag) (self : gmap string (value F)) :
  (7 ≤ length tds)%nat →
  tds !! 5%nat = Some race_td →
  find_all_img race_td = [] →
  RiderResult_init tds ≠ Ok self.
Proof.
  intros Hlen Htd Himgs Hinit.
  destruct (RiderResult_init_built tds race_td self Hinit Hlen Htd)
    as (cat & d & r & g & ic & up & l0 & race_id & i0 & cc & name
        & _ & _ & _ & Hi0 & _).
  by rewrite Himgs in Hi0.
Qed.

(** ** Text normalization of the race name *)

Section StripBy.
Variable space : ascii → bool.

Lemma rstrip_by_idempotent (s : string) :
  PyStr.rstrip_by space (PyStr.rstrip_by space s) = PyStr.rstrip_by space s.
Proof.
  induction s as [|c s IH]; [done|]. cbn [PyStr.rstrip_by].
  destruct (PyStr.rstrip_by space s) as [|c' r] eqn:Hr.
  - destruct (space c) eqn:Hc; cbn [PyStr.rstrip_by]; [done|]. by rewrite Hc.
  - cbn [PyStr.rstrip_by] in *. by rewrite IH.
Qed.

Lemma lstrip_by_head (s : string) :
  match PyStr.lstrip_by space s with
  | EmptyString => True
  | String c _ => space c = false
  end.
Proof.
  induction s as [|c s IH]; [done|]. cbn [PyStr.lstrip_by].
  by destruct (space c) eqn:Hc.
Qed.

Lemma rstrip_by_head (c : ascii) (s : string) :
  space c = false → ∃ r, PyStr.rstrip_by space (String c s) = String c r.
Proof.
  intros Hc. cbn [PyStr.rstrip_by].
  destruct (PyStr.rstrip_by space s); [|by eauto].
  rewrite Hc. by eauto.
Qed.

Lemma strip_by_idempotent (s : string) :
  PyStr.rstrip_by space
    (PyStr.lstrip_by space (PyStr.rstrip_by space (PyStr.lstrip_by space s)))
  = PyStr.rstrip_by space (PyStr.lstrip_by space s).
Proof.
  pose proof (lstrip_by_head s) as Hhead.
  destruct (PyStr.lstrip_by space s) as [|c t]; [done|].
  destruct (rstrip_by_head c t Hhead) as [r Hr]. rewrite Hr.
  cbn [PyStr.lstrip_by]. rewrite Hhead, <- Hr. apply rstrip_by_idempotent.
Qed.

End StripBy.

Lemma strip_idempotent (s : string) :
  PyStr.strip (PyStr.strip s) = PyStr.strip s.
Proof. apply strip_by_idempotent. Qed.

Lemma replace_cons_eq (old : ascii) (new s : string) :
  PyStr.replace old new (String old s) = new +:+ PyStr.replace old new s.
Proof. cbn. by rewrite Ascii.eqb_refl. Qed.

Lemma replace_cons_ne (old c : ascii) (new s : string) :
  c ≠ old →
  PyStr.replace old new (String c s) = String c (PyStr.replace old new s).
Proof. intros Hc. cbn. by destruct (Ascii.eqb_spec c old). Qed.

Lemma full_name_of_chars (race_td : tag) :
  full_name_of race_td =
  PyStr.map newline_to_space
    (PyStr.filter (λ c, negb (tab_or_cr c)) (PyStr.strip (text race_td))).
Proof.
  unfold full_name_of. generalize (PyStr.strip (text race_td)) as s.
  induction s as [|c s IH]; [done|].
  cbn [PyStr.filter]. unfold tab_or_cr at 1.
  destruct (Ascii.eqb_spec c TAB) as [Htab|Htab]; cbn [orb negb].
  { rewrite (replace_cons_ne LF) by (by subst). subst c.
    rewrite replace_cons_eq. exact IH. }
  destruct (Ascii.eqb_spec c CR) as [Hcr|Hcr]; cbn [orb negb].
  { rewrite (replace_cons_ne LF), (replace_cons_ne TAB) by (by subst).
    subst c. rewrite replace_cons_eq. exact IH. }
  cbn [PyStr.map]. unfold newline_to_space at 1.
  destruct (Ascii.eqb_spec c LF) as [Hlf|Hlf].
  - subst c. rewrite replace_cons_eq.
    change (" " +:+ ?r) with (String " " r).
    rewrite !replace_cons_ne by done. by rewrite IH.
  - rewrite !replace_cons_ne by done. by rewrite IH.
Qed.

Lemma full_name_of_no_line_break (race_td : tag) :
  PyStr.forallb (λ c, negb (line_break c)) (full_name_of race_td) = true.
Proof.
  rewrite full_name_of_chars. generalize (PyStr.strip (text race_td)) as s.
  induction s as [|c s IH]; [done|].
  cbn [PyStr.filter]. unfold tab_or_cr at 1.
  destruct (Ascii.eqb_spec c TAB) as [->|Htab]; [done|].
  destruct (Ascii.eqb_spec c CR) as [->|Hcr]; [done|].
  cbn [orb negb PyStr.map PyStr.forallb]. rewrite IH, andb_true_r.
  unfold newline_to_space, line_break.
  destruct (Ascii.eqb_spec c LF) as [->|Hlf]; [done|].
  destruct (Ascii.eqb_spec c LF); [done|].
  destruct (Ascii.eqb_spec c TAB); [done|].
  by destruct (Ascii.eqb_spec c CR).
Qed.

(** C6 (as stated in the specification, refuted). The name cell of the
    sample row reads [Paris<TAB>Roubaix<CR>1]; with each of the two
    characters turned into a space the name would be [Paris Roubaix 1], and
    the record has [ParisRoubaix1]. *)
Lemma full_name_collapsed_fails :
  ¬ Spec.full_name_collapsed (U:=Sample.utilities) Cases.tab_row.
Proof.
  intros Hspec.
  eassert (RiderResult_init (U:=Sample.utilities) Cases.tab_row = Ok _)
    as Hinit by reflexivity.
  specialize (Hspec _ _ Hinit eq_refl). discriminate Hspec.
Qed.

(** C6 (amended). In a record built from a row, [full_name] is the text of
    the name cell, stripped of surrounding whitespace, with every tab and
    every carriage return deleted and every newline replaced by one space,
    so that none of the three characters is left in it. The tokens are the
    pieces of [full_name] split on the bar, each stripped: [name] is the
    first piece stripped, and [edition_city] and [classification], where the
    record has them, are the second piece stripped. Stripping a stripped
    token once more changes nothing. *)
Theorem race_name_normalization {F : Type} {U : Utilities F}
    (tds : list tag) (race_td : tag) (self : gmap string (value F)) :
  RiderResult_init tds = Ok self →
  (7 ≤ length tds)%nat →
  tds !! 5%nat = Some race_td →
  ∃ full first rest,
    self !! "full_name" = Some (VStr full)
    ∧ full = PyStr.map newline_to_space
               (PyStr.filter (λ c, negb (tab_or_cr c))
                  (PyStr.strip (text race_td)))
    ∧ PyStr.forallb (λ c, negb (line_break c)) full = true
    ∧ PyStr.split "|" full = first :: rest
    ∧ self !! "name" = Some (VStr (PyStr.strip first))
    ∧ (∀ v, self !! "edition_city" = Some v →
         ∃ second, rest !! 0%nat = Some second
                   ∧ v = VStr (PyStr.strip second))
    ∧ (∀ v, self !! "classification" = Some v →
         ∃ second, rest !! 0%nat = Some second
                   ∧ v = VStr (PyStr.strip second))
    ∧ (∀ piece, PyStr.strip (PyStr.strip piece) = PyStr.strip piece).
Proof.
  intros Hinit Hlen Htd.
  destruct (RiderResult_init_built tds race_td self Hinit Hlen Htd)
    as (cat & d & r & g & ic & up & l0 & race_id & i0 & cc & name
        & _ & _ & _ & _ & _ & Hname & Hout).
  unfold tokens_of in Hname. rewrite list_lookup_fmap in Hname.
  destruct (PyStr.split "|" (full_name_of race_td)) as [|first rest] eqn:Hsplit;
    [discriminate|].
  cbn in Hname. injection Hname as <-.
  assert (∀ t, tokens_of (full_name_of race_td) !! 1%nat = Some t →
            ∃ second, rest !! 0%nat = Some second ∧ t = PyStr.strip second)
    as Htok.
  { intros t Ht. unfold tokens_of in Ht.
    rewrite Hsplit, list_lookup_fmap in Ht. cbn in Ht.
    destruct (rest !! 0%nat) as [second|]; [|done].
    cbn in Ht. injection Ht as <-. eauto. }
  pose proof (base_no_variant d r g ic cat up race_id cc race_td
                (PyStr.strip first)) as (_ & Hcity & _ & Hclass).
  exists (full_name_of race_td), first, rest.
  rewrite !(outcome_keeps _ _ _ _ _ _ _ _ _ _ _ _ _ Hout) by done.
  rewrite base_full_name, base_name.
  split_and!; try done.
  - apply full_name_of_chars.
  - apply full_name_of_no_line_break.
  - intros v Hv.
    destruct Hout as [i1 ecc city _ _ _ Ht| | |];
      rewrite ?lookup_insert_ne in Hv by done; [|congruence..].
    rewrite lookup_insert_eq in Hv. injection Hv as <-.
    destruct (Htok _ Ht) as (second & ? & ->). eauto.
  - intros v Hv.
    destruct Hout as [| |cl _ _ _ Ht|];
      rewrite ?lookup_insert_ne in Hv by done; [congruence..| |congruence].
    rewrite lookup_insert_eq in Hv. injection Hv as <-.
    destruct (Htok _ Ht) as (second & ? & ->). eauto.
  - apply strip_idempotent.
Qed.

Lemma race_name_normalization_witness :
  ∃ self : gmap string (value Q),
    RiderResult_init (U:=Sample.utilities) Cases.untidy_row = Ok self
    ∧ self !! "full_name"
      = Some (VStr "Tour de France |  Pointsclassification")
    ∧ self !! "name" = Some (VStr "Tour de France")
    ∧ self !! "classification" = Some (VStr "Pointsclassification").
Proof.
  eassert (RiderResult_init (U:=Sample.utilities) Cases.untidy_row = Ok _)
    as Hinit by reflexivity.
  eexists. split; [exact Hinit|].
  edestruct (race_name_normalization (U:=Sample.utilities) Cases.untidy_row)
    as (full & first & rest & Hfull & -> & _ & Hsplit & Hname & _ & Hclass & _);
    [exact Hinit|cbn; lia|reflexivity|].
  injection Hsplit as <- <-.
  edestruct Hclass as (second & Hsecond & Hv); [reflexivity|].
  injection Hsecond as <-.
  split; [exact Hfull|]. split; [exact Hname|].
  exact (f_equal Some Hv).
Defined.

(** ** The race date *)

Lemma rev_app_rev_app (y cur acc : string) :
  String.rev_app (String.rev_app y cur) acc = String.rev_app cur (y +:+ acc).
Proof.
  revert cur. induction y as [|a y IH]; intros cur; [done|].
  cbn [String.rev_app]. by rewrite IH.
Qed.

Lemma rev_rev_app (y : string) : String.rev (String.rev_app y "") = y.
Proof.
  unfold String.rev. rewrite rev_app_rev_app. cbn.
  induction y as [|a y IH]; [done|]. change (String a y +:+ "") with
    (String a (y +:+ "")). by rewrite IH.
Qed.

Lemma prefix_char (sep c : ascii) (s : string) :
  String.prefix (String sep "") (String c s) = Ascii.eqb sep c.
Proof.
  cbn [String.prefix].
  destruct (ascii_dec sep c) as [<-|Hc].
  - rewrite Ascii.eqb_refl. by destruct s.
  - by destruct (Ascii.eqb_spec sep c).
Qed.

Section SplitOnChar.
Variable sep : ascii.

Lemma split_go_piece (y cur rest : string) :
free_of_sep sep y = true →
PyStr.split_go (String sep "") 0 cur (y +:+ String sep rest) =
String.rev (String.rev_app y cur)
  :: PyStr.split_go (String sep "") 0 "" rest.
Proof.
revert cur. induction y as [|a y IH]; intros cur Hy.
- change ("" +:+ String sep rest) with (String sep rest).
  cbn [PyStr.split_go]. by rewrite prefix_char, Ascii.eqb_refl.
- change (String a y +:+ String sep rest)
    with (String a (y +:+ String sep rest)).
  cbn [PyStr.split_go]. rewrite prefix_char.
  cbn in Hy. apply andb_true_iff in Hy as [Ha Hy].
  rewrite Ascii.eqb_sym in Ha. apply negb_true_iff in Ha. rewrite Ha.
  by rewrite IH.
Qed.

Lemma split_go_last (y cur : string) :
free_of_sep sep y = true →
PyStr.split_go (String sep "") 0 cur y = [String.rev (String.rev_app y cur)].
Proof.
revert cur. induction y as [|a y IH]; intros cur Hy; [done|].
cbn [PyStr.split_go]. rewrite prefix_char.
cbn in Hy. apply andb_true_iff in Hy as [Ha Hy].
rewrite Ascii.eqb_sym in Ha. apply negb_true_iff in Ha. rewrite Ha.
by rewrite IH.
Qed.

End SplitOnChar.

Lemma split_dashed (y m d : string) :
  no_dash y = true → no_dash m = true → no_dash d = true →
  PyStr.split "-" (dashed y m d) = [y; m; d].
Proof.
  intros Hy Hm Hd. unfold PyStr.split.
  change (dashed y m d) with (y +:+ String "-" (m +:+ String "-" d)).
  rewrite (split_go_piece "-"), (split_go_piece "-"), (split_go_last "-")
    by done.
  by rewrite !rev_rev_app.
Qed.

Section RaceDate.
Context {F : Type} {U : Utilities F}.

(** The handler of [ParserError], on a text in three pieces. *)
Lemma parse_race_date_fallback (y m d : string) (mv dv : Z) :
no_dash y = true → no_dash m = true → no_dash d = true →
parse (dashed y m d) = Raise ParserError →
PyStr.int m = Ok mv → PyStr.int d = Ok dv →
parse_race_date (dashed y m d) =
parse (dashed y (first_if_zero mv m) (first_if_zero dv d)).
Proof.
intros Hy Hm Hd Hparse Hmv Hdv. unfold parse_race_date.
rewrite Hparse, split_dashed by done.
rewrite Hmv. cbn. rewrite Hdv. cbn. done.
Qed.

(** A text that parses is not touched. *)
Lemma parse_race_date_parsed (date_text : string) (d : date) :
parse date_text = Ok d → parse_race_date date_text = Ok d.
Proof. intros Hparse. unfold parse_race_date. by rewrite Hparse. Qed.

End RaceDate.

(** C7. When [parse] rejects a date text [y-m-d] with a [ParserError], the
    date of the row is [parse] of the text with ["01"] in place of a month
    or a day whose integer value is zero. With a [parse] that rejects the
    three texts below and reads their repaired forms as [dateutil] does,
    ["2020-00-15"] gives 2020-01-15, ["2020-03-00"] gives 2020-03-01 and
    ["2020-00-00"] gives 2020-01-01. *)
Theorem zero_month_or_day_is_first {F : Type} {U : Utilities F} :
  parse "2020-00-15" = Raise ParserError →
  parse "2020-03-00" = Raise ParserError →
  parse "2020-00-00" = Raise ParserError →
  parse "2020-01-15" = Ok (Date 2020 1 15) →
  parse "2020-03-01" = Ok (Date 2020 3 1) →
  parse "2020-01-01" = Ok (Date 2020 1 1) →
  parse_race_date "2020-00-15" = Ok (Date 2020 1 15)
  ∧ parse_race_date "2020-03-00" = Ok (Date 2020 3 1)
  ∧ parse_race_date "2020-00-00" = Ok (Date 2020 1 1)
  ∧ ∀ (y m d : string) (mv dv : Z),
      no_dash y = true → no_dash m = true → no_dash d = true →
      parse (dashed y m d) = Raise ParserError →
      PyStr.int m = Ok mv → PyStr.int d = Ok dv →
      parse_race_date (dashed y m d) =
      parse (dashed y (first_if_zero mv m) (first_if_zero dv d)).
Proof.
  intros Hbad1 Hbad2 Hbad3 Hgood1 Hgood2 Hgood3. split_and!.
  - rewrite <- Hgood1.
    by apply (parse_race_date_fallback "2020" "00" "15" 0 15).
  - rewrite <- Hgood2.
    by apply (parse_race_date_fallback "2020" "03" "00" 3 0).
  - rewrite <- Hgood3.
    by apply (parse_race_date_fallback "2020" "00" "00" 0 0).
  - intros y m d mv dv. apply parse_race_date_fallback.
Qed.

Lemma zero_month_or_day_is_first_witness :
  parse_race_date (U:=Sample.utilities) "2020-00-15" = Ok (Date 2020 1 15)
  ∧ parse_race_date (U:=Sample.utilities) "2020-03-00" = Ok (Date 2020 3 1)
  ∧ parse_race_date (U:=Sample.utilities) "2020-00-00" = Ok (Date 2020 1 1).
Proof.
  destruct (zero_month_or_day_is_first (U:=Sample.utilities)
              eq_refl eq_refl eq_refl eq_refl eq_refl eq_refl)
    as (H1 & H2 & H3 & _).
  split_and!; assumption.
Defined.

(** ** The race side-table *)

(** *** [int] on the numeric characters of a text *)

(** Decides the comparisons of character codes in the goal. *)
Ltac code_cases :=
  repeat match goal with
    | |- context [(?a <=? ?b)%nat] => destruct (Nat.leb_spec a b); try lia
    | |- context [(?a =? ?b)%nat] => destruct (Nat.eqb_spec a b); try lia
    end.

Lemma isdigit_code (c : ascii) :
  PyStr.isdigit c = true ↔ (48 ≤ nat_of_ascii c ≤ 57)%nat.
Proof.
  unfold PyStr.isdigit. rewrite andb_true_iff, !Nat.leb_le. done.
Qed.

Lemma isnumeric_char_code (c : ascii) :
  PyStr.isnumeric_char c = true → (48 ≤ nat_of_ascii c)%nat.
Proof.
  unfold PyStr.isnumeric_char. destruct (PyStr.isdigit c) eqn:Hd.
  - apply isdigit_code in Hd. lia.
  - rewrite orb_false_l. code_cases; cbn; first [done | intros; lia].
Qed.

Lemma isdigit_numeric (c : ascii) :
  PyStr.isdigit c = true → PyStr.isnumeric_char c = true.
Proof. intros Hc. unfold PyStr.isnumeric_char. by rewrite Hc. Qed.

Lemma numeric_not_space (c : ascii) :
  PyStr.isnumeric_char c = true → PyStr.isspace c = false.
Proof.
  intros Hc. pose proof (isnumeric_char_code c Hc) as Hcode. revert Hc.
  unfold PyStr.isnumeric_char, PyStr.isdigit, PyStr.isspace.
  code_cases; cbn; first [done | intros; lia].
Qed.

Lemma numeric_not_int_space (c : ascii) :
  PyStr.isnumeric_char c = true → PyStr.int_space c = false.
Proof.
  intros Hc. pose proof (isnumeric_char_code c Hc) as Hcode. revert Hc.
  unfold PyStr.isnumeric_char, PyStr.isdigit, PyStr.int_space.
  code_cases; cbn; first [done | intros; lia].
Qed.

Lemma numeric_not_char (c x : ascii) :
  PyStr.isnumeric_char c = true → PyStr.isnumeric_char x = false →
  Ascii.eqb c x = false.
Proof. intros Hc Hx. destruct (Ascii.eqb_spec c x); congruence. Qed.

Lemma filter_numeric_all (s : string) :
  PyStr.forallb PyStr.isnumeric_char (PyStr.filter PyStr.isnumeric_char s)
  = true.
Proof.
  induction s as [|c s IH]; [done|]. cbn [PyStr.filter].
  destruct (PyStr.isnumeric_char c) eqn:Hc; [|done].
  cbn [PyStr.forallb]. by rewrite Hc, IH.
Qed.

Lemma filter_isdigit_id (s : string) :
  PyStr.forallb PyStr.isdigit s = true → PyStr.filter PyStr.isdigit s = s.
Proof.
  induction s as [|c s IH]; [done|]. cbn [PyStr.forallb PyStr.filter].
  intros [Hc Hs]%andb_true_iff. rewrite Hc. by rewrite IH.
Qed.

Lemma digits_numeric (s : string) :
  PyStr.forallb PyStr.isdigit s = true →
  PyStr.forallb PyStr.isnumeric_char s = true.
Proof.
  induction s as [|c s IH]; [done|]. cbn [PyStr.forallb].
  intros [Hc Hs]%andb_true_iff. by rewrite isdigit_numeric, IH.
Qed.

Lemma rstrip_by_numeric (space : ascii → bool) (s : string) :
  (∀ c, PyStr.isnumeric_char c = true → space c = false) →
  PyStr.forallb PyStr.isnumeric_char s = true → PyStr.rstrip_by space s = s.
Proof.
  intros Hspace. induction s as [|c s IH]; [done|].
  cbn [PyStr.forallb PyStr.rstrip_by].
  intros [Hc Hs]%andb_true_iff. rewrite IH by done.
  destruct s; [|done]. by rewrite Hspace.
Qed.

Lemma lstrip_by_numeric (space : ascii → bool) (s : string) :
  (∀ c, PyStr.isnumeric_char c = true → space c = false) →
  PyStr.forallb PyStr.isnumeric_char s = true → PyStr.lstrip_by space s = s.
Proof.
  intros Hspace Hs. destruct s as [|c s]; [done|]. cbn in *.
  apply andb_true_iff in Hs as [Hc _]. by rewrite Hspace.
Qed.

Lemma numeric_free_of (x : ascii) (s : string) :
  PyStr.isnumeric_char x = false →
  PyStr.forallb PyStr.isnumeric_char s = true → free_of_sep x s = true.
Proof.
  intros Hx. induction s as [|c s IH]; [done|].
  unfold free_of_sep in *. cbn [PyStr.forallb].
  intros [Hc Hs]%andb_true_iff. rewrite IH by done.
  by rewrite (numeric_not_char c x).
Qed.

(** [int] of a text of numeric characters: its decimal value when all are
    digits 0 to 9, and [ValueError] when one is not or there is none. *)
Lemma int_of_numeric (s : string) :
  PyStr.forallb PyStr.isnumeric_char s = true →
  PyStr.int s =
  if PyStr.isdecimal s then Ok (PyStr.digits_val 0 s) else Raise ValueError.
Proof.
  intros Hs. destruct s as [|c s]; [done|].
  unfold PyStr.int.
  rewrite (lstrip_by_numeric PyStr.int_space), (rstrip_by_numeric PyStr.int_space)
    by auto using numeric_not_int_space.
  pose proof Hs as Hc. cbn [PyStr.forallb] in Hc.
  apply andb_true_iff in Hc as [Hc _].
  rewrite (numeric_not_char c "-"), (numeric_not_char c "+") by done.
  unfold PyStr.digit_groups_ok, PyStr.split.
  rewrite (split_go_last "_") by (by apply numeric_free_of).
  rewrite rev_rev_app. cbn [List.forallb]. rewrite andb_true_r.
  destruct (PyStr.isdecimal (String c s)) eqn:Hdec; [|done].
  by rewrite filter_isdigit_id.
Qed.

Lemma int_of_digits (s : string) :
  PyStr.forallb PyStr.isdigit s = true →
  PyStr.int s =
  match s with
  | EmptyString => Raise ValueError
  | _ => Ok (PyStr.digits_val 0 s)
  end.
Proof.
  intros Hs. rewrite int_of_numeric by (by apply digits_numeric).
  destruct s as [|c s]; [done|]. unfold PyStr.isdecimal. by rewrite Hs.
Qed.

Section StageNumber.
Context {F : Type} {U : Utilities F}.
Variable info : gmap string (@info_row F).

Lemma details_lookup (k : string) :
details info !! k = value_cell <$> info !! k.
Proof. unfold details. apply lookup_fmap. Qed.

Lemma soup_details_lookup (k : string) :
soup_details info !! k = tr <$> info !! k.
Proof. unfold soup_details. apply lookup_fmap. Qed.

(** Lines 259-262 for a table with a "What" row that is a text: [ValueError]
    unless the numeric characters of the value are digits 0 to 9 and there
    is one at least, with or without the word Prologue; otherwise zero for
    a prologue and the number written by the digits for any other value. *)
Lemma get_stage_num_what (self : gmap string (value F)) (what : string) :
details info !! "What" = Some (CellText what) →
get_stage_num info self =
if PyStr.isdecimal (PyStr.filter PyStr.isnumeric_char what)
then Ok (<["stage_num" :=
            if PyStr.contains "Prologue" what then VInt 0
            else VInt (PyStr.digits_val 0
                         (PyStr.filter PyStr.isnumeric_char what))]> self)
else Raise ValueError.
Proof.
intros Hwhat. unfold get_stage_num.
assert (has_key (details info) "What" = true) as ->
  by (apply has_key_true; eauto).
assert (getitem (details info) "What" = Ok (CellText what)) as ->
  by (by apply getitem_Ok).
cbn [mbind result_bind cell_text].
rewrite int_of_numeric by apply filter_numeric_all.
destruct (PyStr.isdecimal (PyStr.filter PyStr.isnumeric_char what)); [|done].
cbn [mbind result_bind].
destruct (PyStr.contains "Prologue" what); [|done].
by rewrite insert_insert_eq.
Qed.

(** Without a "What" row the stage number is [None]. *)
Lemma get_stage_num_no_what (self : gmap string (value F)) :
details info !! "What" = None →
get_stage_num info self = Ok (<["stage_num" := VNone]> self).
Proof.
intros Hwhat. unfold get_stage_num.
assert (has_key (details info) "What" = false) as ->
  by (by apply has_key_false).
done.
Qed.

(** Line 233 for a table with neither "Nation" nor "Where": the lookup of
  the "Where" row raises [KeyError]. *)
Lemma get_nation_no_key (self : gmap string (value F)) :
info !! "Nation" = None → info !! "Where" = None →
get_nation info self = Raise KeyError.
Proof.
intros Hnation Hwhere. unfold get_nation.
assert (has_key (details info) "Nation" = false) as ->.
{ apply has_key_false. by rewrite details_lookup, Hnation. }
unfold getitem. by rewrite soup_details_lookup, Hwhere.
Qed.

(** Lines 235-241 for a table without "Where": both cities are [None]. *)
Lemma get_cities_no_where (self : gmap string (value F)) :
info !! "Where" = None →
get_cities info self =
Ok (<["start_city" := VNone]> (<["end_city" := VNone]> self)).
Proof.
intros Hwhere. unfold get_cities.
assert (has_key (details info) "Where" = false) as ->; [|done].
apply has_key_false. by rewrite details_lookup, Hwhere.
Qed.

(** The extractor fails on a table with neither key, whatever the year. *)
Lemma race_info_init_no_key (self_year : Z) :
info !! "Nation" = None → info !! "Where" = None →
race_info_init info self_year = Raise KeyError.
Proof.
intros Hnation Hwhere. unfold race_info_init.
by rewrite get_nation_no_key.
Qed.

End StageNumber.

(** C3 (the code at the failing input). The side-table of a prologue whose
    "What" value is the word Prologue alone: [int('')] raises [ValueError]
    on line 259, before the prologue is given stage number zero. *)
Theorem prologue_without_digit_raises :
  race_info_init (U:=Sample.utilities) Cases.prologue_info 2016
  = Raise ValueError.
Proof. reflexivity. Qed.

(** C4 (the code at the failing input). A side-table with neither "Nation"
    nor "Where": the lookup on line 233 raises [KeyError]. *)
Theorem no_nation_no_where_raises :
  race_info_init (U:=Sample.utilities) Cases.no_nation_info 2016
  = Raise KeyError.
Proof. reflexivity. Qed.

(** *** Evaluations *)

Example stage_5_is_5 :
  get_stage_num (F:=Q) Cases.stage_info ∅ = Ok {["stage_num" := VInt 5]}.
Proof. by rewrite (get_stage_num_what _ _ "Stage 5"). Qed.

Example prologue_2_is_0 (info : gmap string info_row) :
  info !! "What"
  = Some (InfoRow (CellText "Prologue 2") (Sample.td "Prologue 2")) →
  get_stage_num (F:=Q) info ∅ = Ok {["stage_num" := VInt 0]}.
Proof.
  intros Hwhat. rewrite (get_stage_num_what _ _ "Prologue 2"); [done|].
  by rewrite details_lookup, Hwhat.
Qed.

Example none_or_false :
  py_or (U:=Sample.utilities) VNone (VBool false) = VBool false.
Proof. reflexivity. Qed.

(** * Further properties of the source *)

(** ** The cells of a row *)

(** Line 186, on Latin-1 text: the finish position is the integer written
    by the text when the text is made of digits 0 to 9, the text itself when
    the text is not numeric, and the decoding raises [ValueError] when the
    text is numeric with a character that is no digit 0 to 9, such as a
    superscript two. *)
Theorem parse_result_cases {F : Type} (result_text : string) :
  parse_result (F:=F) result_text =
  if PyStr.isnumeric result_text
  then if PyStr.isdecimal result_text
       then Ok (VInt (PyStr.digits_val 0 result_text))
       else Raise ValueError
  else Ok (VStr result_text).
Proof.
  unfold parse_result.
  destruct (PyStr.isnumeric result_text) eqn:Hnum; [|done].
  destruct result_text as [|c s]; [done|].
  rewrite int_of_numeric by done.
  by destruct (PyStr.isdecimal (String c s)).
Qed.

Example superscript_two_raises :
  parse_result (F:=Q) (String (ascii_of_nat 178) "") = Raise ValueError
  ∧ parse_result (F:=Q) "12" = Ok (VInt 12)
  ∧ parse_result (F:=Q) "DNF" = Ok (VStr "DNF").
Proof. by split_and!. Qed.

Lemma str_app_nil_r (s : string) : s +:+ "" = s.
Proof.
  induction s as [|c s IH]; [done|].
  change (String c s +:+ "") with (String c (s +:+ "")). by rewrite IH.
Qed.

Lemma str_app_assoc (a b c : string) : (a +:+ b) +:+ c = a +:+ (b +:+ c).
Proof.
  induction a as [|x a IH]; [done|].
  change (String x a +:+ b) with (String x (a +:+ b)).
  change (String x (a +:+ b) +:+ c) with (String x ((a +:+ b) +:+ c)).
  by rewrite IH.
Qed.

Lemma rev_app_eq (a b : string) : String.rev_app a b = String.rev a +:+ b.
Proof.
  unfold String.rev. revert b. induction a as [|x a IH]; intros b; [done|].
  cbn [String.rev_app]. rewrite IH, (IH (String x "")).
  by rewrite str_app_assoc.
Qed.

Lemma free_of_sep_app (sep : ascii) (a b : string) :
  free_of_sep sep (a +:+ b) = free_of_sep sep a && free_of_sep sep b.
Proof.
  unfold free_of_sep. induction a as [|x a IH]; [done|].
  change (String x a +:+ b) with (String x (a +:+ b)).
  cbn [PyStr.forallb]. by rewrite IH, andb_assoc.
Qed.

Lemma free_of_sep_rev (sep : ascii) (a : string) :
  free_of_sep sep (String.rev a) = free_of_sep sep a.
Proof.
  induction a as [|x a IH]; [done|].
  unfold String.rev. cbn [String.rev_app]. rewrite rev_app_eq.
  rewrite free_of_sep_app, IH. unfold free_of_sep. cbn [PyStr.forallb].
  rewrite andb_true_r. apply andb_comm.
Qed.

(** The last piece of a text split on one character is free of the
    character and is the end of the text after the last occurrence of the
    character. *)
Lemma split_go_last_piece (sep : ascii) (s cur : string) :
  free_of_sep sep cur = true →
  ∃ pre f,
    last (PyStr.split_go (String sep "") 0 cur s) = Some f
    ∧ free_of_sep sep f = true
    ∧ String.rev cur +:+ s = pre +:+ f
    ∧ (pre = "" ∨ ∃ dir, pre = dir +:+ String sep "").
Proof.
  revert cur. induction s as [|c s IH]; intros cur Hcur.
  - exists "", (String.rev cur). cbn [PyStr.split_go last].
    split_and!; [done| | |by left].
    + by rewrite free_of_sep_rev.
    + by rewrite str_app_nil_r.
  - cbn [PyStr.split_go]. rewrite prefix_char.
    destruct (Ascii.eqb_spec sep c) as [<-|Hc].
    + destruct (IH "" eq_refl) as (pre & f & Hlast & Hf & Heq & Hpre).
      change (String.rev "" +:+ s) with s in Heq.
      change (String.length (String sep "") - 1)%nat with 0%nat.
      exists (String.rev cur +:+ String sep pre), f.
      split_and!; [|done| |].
      * rewrite last_cons, Hlast. done.
      * rewrite Heq, str_app_assoc. done.
      * right. destruct Hpre as [->|[dir ->]].
        -- by exists (String.rev cur).
        -- exists (String.rev cur +:+ String sep dir).
           by rewrite str_app_assoc.
    + destruct (IH (String c cur)) as (pre & f & Hlast & Hf & Heq & Hpre).
      { unfold free_of_sep in *. cbn [PyStr.forallb]. rewrite Hcur.
        rewrite Ascii.eqb_sym. by destruct (Ascii.eqb_spec sep c). }
      exists pre, f. split_and!; [done..| |done].
      rewrite <- Heq. unfold String.rev at 2. cbn [String.rev_app].
      rewrite rev_app_eq, str_app_assoc. done.
Qed.

(** Line 188: the icon of a row is [None] when the icon cell has no image;
    the decoding raises [KeyError] when the first image of the cell has no
    [src]; otherwise the icon is the end of that [src] after its last slash,
    the whole [src] when it has no slash. *)
Theorem parse_icon_filename {F : Type} (icon : tag) :
  match tag_img icon with
  | None => parse_icon (F:=F) icon = Ok VNone
  | Some i =>
      match src i with
      | None => parse_icon (F:=F) icon = Raise KeyError
      | Some s =>
          ∃ pre f,
            parse_icon (F:=F) icon = Ok (VStr f)
            ∧ s = pre +:+ f
            ∧ free_of_sep "/" f = true
            ∧ (pre = "" ∨ ∃ dir, pre = dir +:+ "/")
      end
  end.
Proof.
  unfold parse_icon, img_src. destruct (tag_img icon) as [i|]; [|done].
  destruct (src i) as [s|]; [|done].
  destruct (split_go_last_piece "/" s "" eq_refl)
    as (pre & f & Hlast & Hf & Heq & Hpre).
  exists pre, f. cbn [mbind result_bind].
  unfold subscript_last, PyStr.split. rewrite Hlast.
  by split_and!.
Qed.

(** ** The records of a table *)

Section Records.
Context {F : Type} {U : Utilities F}.

Lemma RiderResult_init_short (tds : list tag) :
  (length tds < 7)%nat → RiderResult_init tds = Ok ∅.
Proof.
  intros Hlen. unfold RiderResult_init.
  by destruct (Nat.ltb_spec (length tds) 7); [|lia].
Qed.

Lemma basic_details_dom (d : date) (r g ic : value F) (cat : string)
    (up race_id cc : value F) (race_td : tag) (name : string) :
  dom (named race_id cc race_td name (basic_details d r g ic cat up))
  = basic_keys.
Proof.
  unfold named, basic_details, basic_keys.
  rewrite !dom_insert_L, dom_empty_L. set_solver.
Qed.

Lemma RiderResult_init_dom (tds : list tag) (self : gmap string (value F)) :
  RiderResult_init tds = Ok self →
  (7 ≤ length tds)%nat →
  ∃ variant : gset string,
    dom self = basic_keys ∪ variant
    ∧ (variant = ∅
       ∨ variant = {[ "edition_country_code"; "edition_city" ]}
       ∨ variant = {[ "stage_num" ]}
       ∨ variant = {[ "classification" ]}).
Proof.
  intros Hinit Hlen.
  destruct (lookup_lt_is_Some_2 tds 5) as [race_td Htd]; [lia|].
  destruct (RiderResult_init_built tds race_td self Hinit Hlen Htd)
    as (cat & d & r & g & ic & up & l0 & race_id & i0 & cc & name
        & _ & _ & _ & _ & _ & _ & Hout).
  destruct Hout.
  - exists {[ "edition_country_code"; "edition_city" ]}.
    rewrite !dom_insert_L, basic_details_dom. split; [set_solver|auto].
  - exists {[ "stage_num" ]}.
    rewrite !dom_insert_L, basic_details_dom. split; [set_solver|auto].
  - exists {[ "classification" ]}.
    rewrite !dom_insert_L, basic_details_dom. split; [set_solver|auto].
  - exists ∅. rewrite basic_details_dom. split; [set_solver|auto].
Qed.

Lemma RiderResult_init_nonempty (tds : list tag)
    (self : gmap string (value F)) :
  RiderResult_init tds = Ok self →
  (7 ≤ length tds)%nat → size self ≠ 0%nat.
Proof.
  intros Hinit Hlen Hsize. apply map_size_empty_inv in Hsize as ->.
  destruct (RiderResult_init_dom tds ∅ Hinit Hlen) as (variant & Hdom & _).
  rewrite dom_empty_L in Hdom. unfold basic_keys in Hdom. set_solver.
Qed.

Lemma mapM_cons_Ok {A B} (f : A → result B) (x : A) (l : list A)
    (ys : list B) :
  mapM f (x :: l) = Ok ys ↔
  ∃ y ys', f x = Ok y ∧ mapM f l = Ok ys' ∧ ys = y :: ys'.
Proof.
  cbn. split.
  - intros H. inv_bind H. inv_bind H. injection H as <-. eauto.
  - intros (y & ys' & -> & -> & ->). done.
Qed.

(** A list comprehension over rows succeeds only if every row does. *)
Lemma mapM_Ok_elem {A B} (f : A → result B) (l : list A) (ys : list B)
    (x : A) :
  mapM f l = Ok ys → x ∈ l → ∃ y, f x = Ok y.
Proof.
  revert ys. induction l as [|a l IH]; intros ys Hl Hx.
  - by apply elem_of_nil in Hx.
  - apply mapM_cons_Ok in Hl as (y & ys' & Ha & Hl & ->).
    apply elem_of_cons in Hx as [->|Hx]; eauto.
Qed.

End Records.

(** Lines 168-207: a record built from a row with a result has the ten basic
    attributes and, beside them, nothing, or the two attributes of a
    championship edition, or [stage_num], or [classification]: never two of
    the three groups, never one edition attribute without the other. *)
Theorem record_attributes {F : Type} {U : Utilities F}
    (tds : list tag) (self : gmap string (value F)) :
  RiderResult_init tds = Ok self →
  (7 ≤ length tds)%nat →
  ∃ variant : gset string,
    dom self = basic_keys ∪ variant
    ∧ (variant = ∅
       ∨ variant = {[ "edition_country_code"; "edition_city" ]}
       ∨ variant = {[ "stage_num" ]}
       ∨ variant = {[ "classification" ]}).
Proof. apply RiderResult_init_dom. Qed.

Lemma record_attributes_witness :
  ∃ self : gmap string (value Q),
    RiderResult_init (U:=Sample.utilities) Sample.stage_row = Ok self
    ∧ (7 ≤ length Sample.stage_row)%nat
    ∧ ∃ variant : gset string, dom self = basic_keys ∪ variant.
Proof.
  assert (∃ r, RiderResult_init (U:=Sample.utilities) Sample.stage_row = Ok r)
    as [self Hinit] by (eexists; reflexivity).
  assert (7 ≤ length Sample.stage_row)%nat as Hlen by (cbn; lia).
  exists self. split; [exact Hinit|]. split; [exact Hlen|].
  destruct (record_attributes (U:=Sample.utilities) Sample.stage_row self
              Hinit Hlen) as (variant & Hdom & _).
  exists variant. exact Hdom.
Defined.

Section TableRows.
Context {F : Type} {U : Utilities F}.

(** The records kept by line 152 are those of the rows with seven cells at
    least, and a shorter row raises nothing. *)
Lemma kept_results_are_long_rows (rows : list (list tag)) :
  (results ← mapM RiderResult_init rows;
   Ok (filter (λ x : gmap string (value F), size x ≠ 0%nat) results))
  = mapM RiderResult_init (filter (λ tds, (7 ≤ length tds)%nat) rows).
Proof.
  induction rows as [|tds rows IH]; [done|].
  destruct (decide (7 ≤ length tds)%nat) as [Hlen|Hlen].
  - rewrite filter_cons_True by done. cbn [mapM].
    destruct (RiderResult_init tds) as [y|e] eqn:Hy; [|done].
    cbn [mbind result_bind] in *. rewrite <- IH.
    destruct (mapM RiderResult_init rows) as [ys|e]; [|done].
    cbn [mbind result_bind mret result_ret].
    by rewrite filter_cons_True by (by eapply RiderResult_init_nonempty).
  - rewrite filter_cons_False by done. cbn [mapM].
    rewrite RiderResult_init_short by lia.
    cbn [mbind result_bind] in *. rewrite <- IH.
    destruct (mapM RiderResult_init rows) as [ys|e]; [|done].
    cbn [mbind result_bind mret result_ret].
    by rewrite filter_cons_False by (rewrite map_size_empty; auto).
Qed.

End TableRows.


(** Line 151 with 196: with the name [results_table] bound to a table, a row
    of seven cells at least whose name cell has no image makes the
    constructor fail; the records of the other rows are not kept. *)
Theorem table_fails_on_row_without_image {F : Type} {U : Utilities F}
    (table : option (list (list tag)))
    (rows : list (list tag)) (tds : list tag) (race_td : tag)
    (results : list (gmap string (value F))) :
  tds ∈ rows →
  (7 ≤ length tds)%nat →
  tds !! 5%nat = Some race_td →
  find_all_img race_td = [] →
  RiderResultsTable_init (Some (Some rows)) table ≠ Ok results.
Proof.
  intros Hin Hlen Htd Himgs H. unfold RiderResultsTable_init in H.
  inv_bind H.
  destruct (mapM_Ok_elem _ _ _ tds Hstep Hin) as [self Hself].
  by eapply no_image_no_record.
Qed.

Lemma table_fails_on_row_without_image_witness :
  RiderResultsTable_init (U:=Sample.utilities)
    (Some (Some [Sample.stage_row; Cases.no_flag_row])) None ≠ Ok [].
Proof.
  eapply (table_fails_on_row_without_image (U:=Sample.utilities)
            None _ Cases.no_flag_row).
  - apply elem_of_cons. right. apply elem_of_cons. by left.
  - cbn. lia.
  - reflexivity.
  - reflexivity.
Defined.

(** ** Dates that [parse] rejects *)

(** Lines 178-183: a date text that [parse] rejects and whose month and day
    are both non-zero integers is parsed again unchanged, so the row fails
    with the same [ParserError]. *)
Theorem rejected_date_stays_rejected {F : Type} {U : Utilities F}
    (y m d : string) (mv dv : Z) :
  no_dash y = true → no_dash m = true → no_dash d = true →
  parse (dashed y m d) = Raise ParserError →
  PyStr.int m = Ok mv → PyStr.int d = Ok dv →
  mv ≠ 0 → dv ≠ 0 →
  parse_race_date (dashed y m d) = Raise ParserError.
Proof.
  intros Hy Hm Hd Hparse Hmv Hdv Hmz Hdz.
  rewrite (parse_race_date_fallback y m d mv dv) by done.
  unfold first_if_zero.
  destruct (Z.eqb_spec mv 0); [done|]. by destruct (Z.eqb_spec dv 0).
Qed.

Lemma rejected_date_stays_rejected_witness :
  parse_race_date (U:=Sample.utilities) "2020-13-45" = Raise ParserError.
Proof.
  apply (rejected_date_stays_rejected (U:=Sample.utilities)
           "2020" "13" "45" 13 45); solve [reflexivity | lia].
Defined.

(** Lines 178-179: a date text that [parse] rejects and that is not made of
    exactly three pieces between dashes raises [ValueError] when it is
    unpacked into year, month and day. *)
Theorem rejected_date_needs_three_pieces {F : Type} {U : Utilities F}
    (date_text : string) :
  parse date_text = Raise ParserError →
  length (PyStr.split "-" date_text) ≠ 3%nat →
  parse_race_date date_text = Raise ValueError.
Proof.
  intros Hparse Hlen. unfold parse_race_date. rewrite Hparse.
  by destruct (PyStr.split "-" date_text) as [|? [|? [|? [|? ?]]]].
Qed.

Lemma rejected_date_needs_three_pieces_witness :
  parse_race_date (U:=Sample.utilities) "unknown" = Raise ValueError.
Proof.
  apply (rejected_date_needs_three_pieces (U:=Sample.utilities));
    [reflexivity|cbn; lia].
Defined.

(** ** More on the race-type flags *)

Section MoreFlags.
Context {F : Type} {U : Utilities F}.
Variables self_cat self_name : string.
Variable self_icon : option string.

Abbreviation flags := (results_series self_cat self_name self_icon).

Lemma series_mtf :
  flags !! "mtf" = Some (if_profile self_icon (λ p, PyStr.endswith p " MTF")).
Proof. unfold results_series. by simplify_map_eq. Qed.

Lemma series_mountain :
  flags !! "mountain" = Some (if_profile self_icon (PyStr.contains "Mountain")).
Proof. unfold results_series. by simplify_map_eq. Qed.

Lemma series_hilly :
  flags !! "hilly" = Some (if_profile self_icon (PyStr.contains "Hilly")).
Proof. unfold results_series. by simplify_map_eq. Qed.

Lemma series_flat :
  flags !! "flat" = Some (if_profile self_icon (PyStr.contains "Flat")).
Proof. unfold results_series. by simplify_map_eq. Qed.

Lemma series_cobbled :
  flags !! "cobbled" = Some (if_profile self_icon (PyStr.contains "Cobbles")).
Proof. unfold results_series. by simplify_map_eq. Qed.

End MoreFlags.

(** Lines 316-323: when the profile of a result is [None], [itt], [mtf],
    [mountain], [hilly], [flat] and [cobbled] are all [None], while [ttt] and
    [tt] are False. *)
Theorem unknown_profile_flags {F : Type} {U : Utilities F}
    (self_cat self_name : string) (self_icon : option string) :
  results_series self_cat self_name self_icon !! "profile" = Some VNone →
  Forall (λ k, results_series self_cat self_name self_icon !! k = Some VNone)
    ["itt"; "mtf"; "mountain"; "hilly"; "flat"; "cobbled"]
  ∧ Forall (λ k, results_series self_cat self_name self_icon !! k
                 = Some (VBool false)) ["ttt"; "tt"].
Proof.
  rewrite series_profile. intros Hprofile.
  assert (profile self_icon = None) as Hnone.
  { destruct (profile self_icon); [discriminate|done]. }
  assert (∀ test, if_profile self_icon test = VNone) as Hif.
  { intros test. unfold if_profile. by rewrite Hnone. }
  split.
  - repeat apply Forall_cons_2; try apply Forall_nil_2.
    + by rewrite series_itt; unfold itt; rewrite Hif.
    + by rewrite series_mtf, Hif.
    + by rewrite series_mountain, Hif.
    + by rewrite series_hilly, Hif.
    + by rewrite series_flat, Hif.
    + by rewrite series_cobbled, Hif.
  - repeat apply Forall_cons_2; try apply Forall_nil_2.
    + rewrite series_ttt. unfold ttt. by rewrite Hnone.
    + rewrite series_tt. unfold tt, itt, ttt, py_or. by rewrite Hif, Hnone.
Qed.

Lemma unknown_profile_flags_witness :
  results_series (U:=Sample.utilities) "2.UWT" "Tour de France"
    (Some "yellow.png") !! "profile" = Some VNone
  ∧ results_series (U:=Sample.utilities) "2.UWT" "Tour de France"
      (Some "yellow.png") !! "mtf" = Some VNone
  ∧ results_series (U:=Sample.utilities) "2.UWT" "Tour de France"
      (Some "yellow.png") !! "tt" = Some (VBool false).
Proof.
  assert (results_series (U:=Sample.utilities) "2.UWT" "Tour de France"
            (Some "yellow.png") !! "profile" = Some VNone) as Hprofile
    by reflexivity.
  split; [exact Hprofile|].
  destruct (unknown_profile_flags (U:=Sample.utilities) _ _ _ Hprofile)
    as [Hnone Hfalse].
  split.
  - apply (proj1 (Forall_forall _ _) Hnone). set_solver.
  - apply (proj1 (Forall_forall _ _) Hfalse). set_solver.
Defined.

(** Lines 316-318: [tt] is True exactly when [itt] or [ttt] is True, and the
    two are never True together: a team time trial is not an individual
    one. *)
Theorem tt_true_iff {F : Type} {U : Utilities F}
    (self_cat self_name : string) (self_icon : option string) :
  (results_series self_cat self_name self_icon !! "tt" = Some (VBool true) ↔
   results_series self_cat self_name self_icon !! "itt" = Some (VBool true)
   ∨ results_series self_cat self_name self_icon !! "ttt" = Some (VBool true))
  ∧ ¬ (results_series self_cat self_name self_icon !! "itt"
         = Some (VBool true)
       ∧ results_series self_cat self_name self_icon !! "ttt"
         = Some (VBool true)).
Proof.
  rewrite series_tt, series_itt, series_ttt.
  unfold tt, itt, ttt, py_or, if_profile.
  destruct (profile self_icon) as [p|]; cbn.
  2:{ split; [|by intros [? _]]. split; [discriminate|by intros [?|?]]. }
  destruct (decide (p = "TTT")) as [->|Hp].
  { cbn. split; [|by intros [? _]]. split; [by right|done]. }
  rewrite bool_decide_eq_false_2 by congruence.
  destruct (String.eqb_spec p "") as [->|Hp']; cbn.
  { split; [|by intros [? _]]. split; [discriminate|by intros [?|?]]. }
  destruct (PyStr.contains "ITT" p); cbn.
  - split; [|by intros [_ ?]]. split; [by left|done].
  - split; [|by intros [? _]]. split; [discriminate|by intros [?|?]].
Qed.

(** ** Splitting on a separator of several characters *)

Lemma prefix_get (p s : string) (n : nat) :
  String.prefix p s = true → (n < String.length p)%nat →
  String.get n s = String.get n p.
Proof.
  revert s n. induction p as [|a p IH]; intros s n Hp Hn; [cbn in Hn; lia|].
  destruct s as [|b s]; [done|]. cbn in Hp.
  destruct (ascii_dec a b) as [<-|]; [|done].
  destruct n as [|n]; [done|]. cbn. apply IH; [done|]. cbn in Hn. lia.
Qed.

Lemma prefix_app_same (p r : string) : String.prefix p (p +:+ r) = true.
Proof.
  induction p as [|a p IH]; [by destruct r|].
  change (String a p +:+ r) with (String a (p +:+ r)). cbn.
  by destruct (ascii_dec a a).
Qed.

Lemma free_of_sep_get (k : ascii) (s : string) (n : nat) :
  free_of_sep k s = true → String.get n s ≠ Some k.
Proof.
  revert n. induction s as [|c s IH]; intros n Hs; [done|].
  unfold free_of_sep in *. cbn in Hs. apply andb_true_iff in Hs as [Hc Hs].
  destruct n as [|n]; cbn; [|by apply IH].
  intros [= ->]. by rewrite Ascii.eqb_refl in Hc.
Qed.

Lemma str_length_app (a b : string) :
  String.length (a +:+ b) = (String.length a + String.length b)%nat.
Proof.
  induction a as [|x a IH]; [done|].
  change (String x a +:+ b) with (String x (a +:+ b)). cbn. by rewrite IH.
Qed.

Lemma get_Some_lt (s : string) (n : nat) (c : ascii) :
  String.get n s = Some c → (n < String.length s)%nat.
Proof.
  revert n. induction s as [|x s IH]; intros n Hn; [done|].
  destruct n as [|n]; cbn in *; [lia|]. apply IH in Hn. lia.
Qed.

Lemma split_go_skip (sep t cur rest : string) :
  PyStr.split_go sep (String.length t) cur (t +:+ rest)
  = PyStr.split_go sep 0 cur rest.
Proof.
  induction t as [|c t IH]; [done|].
  change (String c t +:+ rest) with (String c (t +:+ rest)). by cbn.
Qed.

(** A separator at the head of the text closes the current piece. *)
Lemma split_go_match (c : ascii) (t cur rest : string) :
  PyStr.split_go (String c t) 0 cur (String c t +:+ rest)
  = String.rev cur :: PyStr.split_go (String c t) 0 "" rest.
Proof.
  pose proof (prefix_app_same (String c t) rest) as Hp.
  change (String c t +:+ rest) with (String c (t +:+ rest)) in *.
  cbn [PyStr.split_go]. rewrite Hp. f_equal.
  replace (String.length (String c t) - 1)%nat with (String.length t)
    by (cbn; lia).
  apply split_go_skip.
Qed.

Lemma contains_prefix (p s : string) :
  String.prefix p s = true → PyStr.contains p s = true.
Proof. intros Hp. destruct s; cbn [PyStr.contains]; by rewrite Hp. Qed.

Lemma nonempty_string (s : string) :
  (0 < String.length s)%nat → ∃ c t, s = String c t.
Proof. destruct s; [cbn; lia|eauto]. Qed.

Section SplitOnSeparator.
(** A separator [sep] whose character number [n] is [k], with no [k]
    before it. *)
Variables (sep : string) (k : ascii) (n : nat).
Hypothesis sep_k : String.get n sep = Some k.
Hypothesis sep_before : ∀ m, (m < n)%nat → String.get m sep ≠ Some k.

Lemma sep_index : (n < String.length sep)%nat.
Proof. by eapply get_Some_lt. Qed.

(** The separator does not start inside a piece that is free of [k]. *)
Lemma no_match_in_piece (a rest : string) :
  free_of_sep k a = true → a ≠ "" →
  String.prefix sep (a +:+ sep +:+ rest) = false.
Proof.
  intros Ha Hne. apply not_true_is_false. intros Hp.
  pose proof (prefix_get _ _ n Hp sep_index) as Hget.
  rewrite sep_k in Hget.
  destruct (Nat.lt_ge_cases n (String.length a)) as [Hlt|Hge].
  - rewrite <- String.append_correct1 in Hget by done.
    by apply free_of_sep_get in Hget.
  - replace n with ((n - String.length a) + String.length a)%nat in Hget
      at 1 by lia.
    rewrite <- String.append_correct2 in Hget.
    assert (n - String.length a < n)%nat as Hlt.
    { destruct a; [done|]. cbn in Hge |- *. lia. }
    rewrite <- String.append_correct1 in Hget
      by (pose proof sep_index; lia).
    by apply sep_before in Hget.
Qed.

Lemma no_match_in_free (b : string) :
  free_of_sep k b = true → String.prefix sep b = false.
Proof.
  intros Hb. apply not_true_is_false. intros Hp.
  pose proof (prefix_get _ _ n Hp sep_index) as Hget.
  rewrite sep_k in Hget. by apply free_of_sep_get in Hget.
Qed.

Lemma split_go_sep_piece (a cur rest : string) :
  free_of_sep k a = true →
  PyStr.split_go sep 0 cur (a +:+ sep +:+ rest)
  = String.rev (String.rev_app a cur) :: PyStr.split_go sep 0 "" rest.
Proof.
  revert cur. induction a as [|x a IH]; intros cur Ha.
  - change ("" +:+ sep +:+ rest) with (sep +:+ rest).
    destruct (nonempty_string sep) as (c & t & Hsep);
      [pose proof sep_index; lia|].
    rewrite Hsep. apply split_go_match.
  - pose proof (no_match_in_piece (String x a) rest Ha) as Hno.
    change (String x a +:+ sep +:+ rest)
      with (String x (a +:+ sep +:+ rest)) in *.
    cbn [PyStr.split_go]. rewrite Hno by done.
    unfold free_of_sep in Ha. cbn in Ha.
    apply andb_true_iff in Ha as [_ Ha]. by rewrite IH.
Qed.

Lemma split_go_sep_last (b cur : string) :
  free_of_sep k b = true →
  PyStr.split_go sep 0 cur b = [String.rev (String.rev_app b cur)].
Proof.
  revert cur. induction b as [|x b IH]; intros cur Hb; [done|].
  cbn [PyStr.split_go]. rewrite (no_match_in_free _ Hb).
  unfold free_of_sep in Hb. cbn in Hb.
  apply andb_true_iff in Hb as [_ Hb]. by rewrite IH.
Qed.

(** Two pieces free of [k] around one separator are found again. *)
Lemma split_two (a b : string) :
  free_of_sep k a = true → free_of_sep k b = true →
  PyStr.split sep (a +:+ sep +:+ b) = [a; b].
Proof.
  intros Ha Hb. unfold PyStr.split.
  rewrite split_go_sep_piece, split_go_sep_last by done.
  by rewrite !rev_rev_app.
Qed.

Lemma contains_sep (a b : string) :
  PyStr.contains sep (a +:+ sep +:+ b) = true.
Proof.
  induction a as [|x a IH].
  - change ("" +:+ sep +:+ b) with (sep +:+ b).
    apply contains_prefix, prefix_app_same.
  - change (String x a +:+ sep +:+ b) with (String x (a +:+ sep +:+ b)).
    cbn [PyStr.contains]. rewrite IH. apply orb_true_r.
Qed.

End SplitOnSeparator.

Lemma arrow_before (m : nat) : (m < 2)%nat → String.get m " -> " ≠ Some ">"%char.
Proof. intros Hm. by destruct m as [|[|m]]; [..|lia]. Qed.

Lemma dash_before (m : nat) : (m < 1)%nat → String.get m " - " ≠ Some "-"%char.
Proof. intros Hm. by destruct m as [|m]; [|lia]. Qed.

(** Lines 235-239, for a table with a "Where" row. A value that is a number,
    the NaN of an empty cell for one, raises [TypeError] at the test for the
    arrow. For a text [a -> b] whose two pieces have no [>], the start city
    is [a] and the end city is [b]; a text with two arrows cannot be
    unpacked and raises [ValueError]; a text without the arrow is both the
    start and the end city. *)
Theorem cities_of_where {F : Type} {U : Utilities F}
    (info : gmap string info_row) (self : gmap string (value F))
    (where_ : cell) :
  details info !! "Where" = Some where_ →
  (∀ v, where_ = CellNumber v → get_cities info self = Raise TypeError)
  ∧ (∀ a b, where_ = CellText (a +:+ " -> " +:+ b) →
       free_of_sep ">" a = true → free_of_sep ">" b = true →
       get_cities info self
       = Ok (<["end_city" := VStr b]> (<["start_city" := VStr a]> self)))
  ∧ (∀ a b c, where_ = CellText (a +:+ " -> " +:+ b +:+ " -> " +:+ c) →
       free_of_sep ">" a = true → free_of_sep ">" b = true →
       free_of_sep ">" c = true →
       get_cities info self = Raise ValueError)
  ∧ (∀ w, where_ = CellText w → PyStr.contains " -> " w = false →
       get_cities info self
       = Ok (<["start_city" := VStr w]> (<["end_city" := VStr w]> self))).
Proof.
  intros Hwhere. unfold get_cities.
  assert (has_key (details info) "Where" = true) as ->
    by (apply has_key_true; eauto).
  assert (getitem (details info) "Where" = Ok where_) as ->
    by (by apply getitem_Ok).
  cbn [mbind result_bind]. split_and!.
  - by intros v ->.
  - intros a b -> Ha Hb. cbn [cell_text mbind result_bind].
    rewrite (contains_sep " -> "), (split_two " -> " ">" 2 eq_refl arrow_before)
      by done.
    done.
  - intros a b c -> Ha Hb Hc. cbn [cell_text mbind result_bind].
    rewrite (contains_sep " -> "). unfold PyStr.split.
    rewrite !(split_go_sep_piece " -> " ">" 2 eq_refl arrow_before) by done.
    rewrite (split_go_sep_last " -> " ">" 2 eq_refl) by done.
    done.
  - intros w -> Hw. cbn [cell_text mbind result_bind]. by rewrite Hw.
Qed.

Lemma cities_of_where_witness :
  get_cities (F:=Q) Cases.paris_roubaix_info ∅
  = Ok (<["end_city" := VStr "Roubaix"]> {["start_city" := VStr "Paris"]})
  ∧ get_cities (F:=Q) Cases.numeric_info ∅ = Raise TypeError.
Proof.
  split.
  - apply (proj1 (proj2 (cities_of_where (U:=Sample.utilities)
                           Cases.paris_roubaix_info ∅
                           (CellText "Paris -> Roubaix") eq_refl))
             "Paris" "Roubaix"); reflexivity.
  - apply (proj1 (cities_of_where (U:=Sample.utilities)
                    Cases.numeric_info ∅ (CellNumber (VInt 0)) eq_refl)
             (VInt 0)); reflexivity.
Defined.

(** Lines 248-252, for a table with a "Date" row. A value that is a number,
    the NaN of an empty cell for one, raises [TypeError] at the test for the
    separator. For a text [a - b] whose two pieces have no dash, the start
    date is [parse] of [a] followed by a comma and the year, the end date is
    [parse] of [b] followed by the same, and the first failure of the two is
    the failure of the extractor; a text without the separator gives one
    date for both. *)
Theorem dates_of_date {F : Type} {U : Utilities F}
    (info : gmap string info_row) (self_year : Z)
    (self : gmap string (value F)) (date_ : cell) :
  details info !! "Date" = Some date_ →
  (∀ v, date_ = CellNumber v →
     get_dates info self_year self = Raise TypeError)
  ∧ (∀ a b, date_ = CellText (a +:+ " - " +:+ b) →
       free_of_sep "-" a = true → free_of_sep "-" b = true →
       get_dates info self_year self
       = (s ← parse (a +:+ ", " +:+ pretty self_year);
          e ← parse (b +:+ ", " +:+ pretty self_year);
          Ok (<["end_date" := VDate e]> (<["start_date" := VDate s]> self))))
  ∧ (∀ d, date_ = CellText d → PyStr.contains " - " d = false →
       get_dates info self_year self
       = (d ← parse (d +:+ ", " +:+ pretty self_year);
          Ok (<["start_date" := VDate d]> (<["end_date" := VDate d]> self)))).
Proof.
  intros Hdate. unfold get_dates.
  assert (has_key (details info) "Date" = true) as ->
    by (apply has_key_true; eauto).
  assert (getitem (details info) "Date" = Ok date_) as ->
    by (by apply getitem_Ok).
  cbn [mbind result_bind]. split_and!.
  - by intros v ->.
  - intros a b -> Ha Hb. cbn [cell_text mbind result_bind].
    rewrite (contains_sep " - "), (split_two " - " "-" 1 eq_refl dash_before)
      by done.
    cbn [mapM]. unfold parse_with_year.
    destruct (parse (a +:+ ", " +:+ pretty self_year)) as [s|e]; [|done].
    cbn. by destruct (parse (b +:+ ", " +:+ pretty self_year)).
  - intros d -> Hd. cbn [cell_text mbind result_bind]. by rewrite Hd.
Qed.

Lemma dates_of_date_witness :
  get_dates (U:=Sample.utilities) Cases.tour_info 2016 ∅
  = Ok (<["end_date" := VDate (Date 2016 7 23)]>
          {["start_date" := VDate (Date 2016 7 1)]})
  ∧ get_dates (U:=Sample.utilities) Cases.numeric_info 2016 ∅
    = Raise TypeError.
Proof.
  split.
  - rewrite (proj1 (proj2 (dates_of_date (U:=Sample.utilities)
                             Cases.tour_info 2016 ∅
                             (CellText "01.07 - 23.07") eq_refl))
               "01.07" "23.07"); reflexivity.
  - apply (proj1 (dates_of_date (U:=Sample.utilities)
                    Cases.numeric_info 2016 ∅ (CellNumber (VInt 0))
                    eq_refl) (VInt 0)); reflexivity.
Defined.

(** ** The steps of the side-table extractor *)

Section RaceInfoSteps.
Context {F : Type} {U : Utilities F}.
Variable info : gmap string (@info_row F).
Variable self_year : Z.
Implicit Types self : gmap string (value F).

Lemma get_nation_Ok self self' :
  get_nation info self = Ok self' →
  ∃ nation, self' = <["nation" := nation]> self.
Proof.
  unfold get_nation. intros H. inv_bind H. inv_bind H. injection H as <-.
  eauto.
Qed.

Lemma get_cities_Ok self self' :
  get_cities info self = Ok self' →
  ∃ s e, self' = <["start_city" := s]> (<["end_city" := e]> self).
Proof.
  unfold get_cities. intros H.
  destruct (has_key (details info) "Where"); [|injection H as <-; eauto].
  apply bind_Ok in H as (c & _ & H). apply bind_Ok in H as (w & _ & H).
  destruct (PyStr.contains " -> " w).
  - apply bind_Ok in H as ([s e] & _ & H). injection H as <-.
    exists (VStr s), (VStr e). by apply insert_insert_ne.
  - injection H as <-. eauto.
Qed.

Lemma get_nation_edge_case_Ok self self' :
  get_nation_edge_case info self = Ok self' →
  self' = self
  ∨ ∃ row i nation t,
      info !! "Nation" = Some row
      ∧ (1 < length (find_all_img (tr row)))%nat
      ∧ last (find_all_img (tr row)) = Some i
      ∧ img_to_country_code (Some i) = Ok nation
      ∧ next_sibling i = TextSibling t
      ∧ self' = <["start_city" := VStr (PyStr.strip t)]>
                  (<["end_city" := VStr (PyStr.strip t)]>
                     (<["nation" := nation]> self)).
Proof.
  unfold get_nation_edge_case. intros H.
  destruct (has_key (details info) "Nation"); [|injection H as <-; auto].
  inv_bind H. apply getitem_Ok in Hstep.
  rewrite soup_details_lookup in Hstep.
  destruct (info !! "Nation") as [row|] eqn:Hrow; [|done].
  cbn in Hstep. injection Hstep as <-.
  destruct (Nat.ltb_spec 1 (length (find_all_img (tr row)))) as [Hlen|Hlen];
    [|injection H as <-; auto].
  inv_bind H. inv_bind H. inv_bind H. injection H as <-.
  unfold subscript_last in Hstep.
  destruct (last (find_all_img (tr row))) as [i|] eqn:Hlast; [|done].
  injection Hstep as <-.
  destruct (next_sibling i) as [|t|] eqn:Hsib; try done.
  cbn in Hstep1. injection Hstep1 as <-.
  right. exists row, i, a0, t. by split_and!.
Qed.

(** With one image at most in the "Nation" row, or without the row, the step
    changes nothing. *)
Lemma get_nation_edge_case_skip self :
  (∀ row, info !! "Nation" = Some row →
     (length (find_all_img (tr row)) ≤ 1)%nat) →
  get_nation_edge_case info self = Ok self.
Proof.
  intros Hone. unfold get_nation_edge_case.
  destruct (has_key (details info) "Nation") eqn:Hkey; [|done].
  apply has_key_true in Hkey as [w Hw].
  rewrite details_lookup in Hw.
  destruct (info !! "Nation") as [row|] eqn:Hrow; [|done].
  unfold getitem. rewrite soup_details_lookup, Hrow. cbn -[Nat.ltb].
  specialize (Hone row eq_refl).
  by destruct (Nat.ltb_spec 1 (length (find_all_img (tr row)))); [lia|].
Qed.

Lemma get_dates_Ok self self' :
  get_dates info self_year self = Ok self' →
  ∃ s e, self' = <["start_date" := s]> (<["end_date" := e]> self).
Proof.
  unfold get_dates. intros H.
  destruct (has_key (details info) "Date"); [|injection H as <-; eauto].
  apply bind_Ok in H as (c & _ & H). apply bind_Ok in H as (w & _ & H).
  destruct (PyStr.contains " - " w).
  - apply bind_Ok in H as (ds & _ & H).
    apply bind_Ok in H as ([s e] & _ & H). injection H as <-.
    exists (VDate s), (VDate e). by apply insert_insert_ne.
  - apply bind_Ok in H as (d & _ & H). injection H as <-. eauto.
Qed.

Lemma get_stage_num_Ok self self' :
  get_stage_num info self = Ok self' →
  ∃ n, self' = <["stage_num" := n]> self.
Proof.
  unfold get_stage_num. intros H. apply bind_Ok in H as (n & _ & H).
  destruct (has_key (details info) "What"); [|injection H as <-; eauto].
  apply bind_Ok in H as (c & _ & H). apply bind_Ok in H as (w & _ & H).
  destruct (PyStr.contains "Prologue" w); injection H as <-.
  - exists (VInt 0). apply insert_insert_eq.
  - eauto.
Qed.

(** The extractor, step by step. *)
Lemma race_info_init_Ok self :
  race_info_init info self_year = Ok self →
  ∃ s1 s2 s3 s4 s5 distance cat profile leaders,
    get_nation info ∅ = Ok s1
    ∧ get_cities info s1 = Ok s2
    ∧ get_nation_edge_case info s2 = Ok s3
    ∧ get_dates info self_year s3 = Ok s4
    ∧ get_distance info = Ok distance
    ∧ get_cat (F:=F) info = Ok cat
    ∧ get_stage_num info (<["cat" := cat]> (<["distance" := distance]> s4))
      = Ok s5
    ∧ get_profile info = Ok profile
    ∧ get_classification_leaders info
        ["Leader"; "Youth"; "Points"; "Mountain"; "Combative"] []
      = Ok leaders
    ∧ self = <["classification_leaders" := VDict leaders]>
               (<["profile" := profile]> s5).
Proof.
  unfold race_info_init. intros H.
  inv_bind H. inv_bind H. inv_bind H. inv_bind H. inv_bind H. inv_bind H.
  inv_bind H. inv_bind H. inv_bind H. injection H as <-.
  exists a, a0, a1, a2, a5, a3, a4, a6, a7. by split_and!.
Qed.

End RaceInfoSteps.

Section RaceInfoProperties.
Context {F : Type} {U : Utilities F}.
Variable info : gmap string (@info_row F).
Variable self_year : Z.
Implicit Types self : gmap string (value F).

Lemma get_nation_edge_case_many self self' (row : info_row) :
  info !! "Nation" = Some row →
  (1 < length (find_all_img (tr row)))%nat →
  get_nation_edge_case info self = Ok self' →
  ∃ i nation t,
    last (find_all_img (tr row)) = Some i
    ∧ img_to_country_code (Some i) = Ok nation
    ∧ next_sibling i = TextSibling t
    ∧ self' = <["start_city" := VStr (PyStr.strip t)]>
                (<["end_city" := VStr (PyStr.strip t)]>
                   (<["nation" := nation]> self)).
Proof.
  intros Hrow Hlen. unfold get_nation_edge_case.
  assert (has_key (details info) "Nation" = true) as ->.
  { apply has_key_true. rewrite details_lookup, Hrow. by eexists. }
  unfold getitem. rewrite soup_details_lookup, Hrow. cbn -[Nat.ltb].
  destruct (Nat.ltb_spec 1 (length (find_all_img (tr row)))); [|lia].
  intros Hedge. inv_bind Hedge. inv_bind Hedge. inv_bind Hedge.
  injection Hedge as <-.
  unfold subscript_last in Hstep.
  destruct (last (find_all_img (tr row))) as [i|] eqn:Hlast; [|done].
  injection Hstep as <-.
  destruct (next_sibling i) as [|t|] eqn:Hsib; try done.
  cbn in Hstep1. injection Hstep1 as <-.
  exists i, a0, t. by split_and!.
Qed.

Lemma race_info_init_dom self :
  race_info_init info self_year = Ok self → dom self = race_info_keys.
Proof.
  intros H.
  apply race_info_init_Ok in H
    as (s1 & s2 & s3 & s4 & s5 & distance & cat & profile & leaders
        & H1 & H2 & H3 & H4 & _ & _ & H5 & _ & _ & ->).
  apply get_nation_Ok in H1 as [nation ->].
  apply get_cities_Ok in H2 as (s & e & ->).
  apply get_dates_Ok in H4 as (sd & ed & ->).
  apply get_stage_num_Ok in H5 as (n & ->).
  unfold race_info_keys.
  apply get_nation_edge_case_Ok in H3
    as [->|(row & i & nation' & t & _ & _ & _ & _ & _ & ->)];
    rewrite !dom_insert_L, dom_empty_L; set_solver.
Qed.

End RaceInfoProperties.

(** Lines 227-275: when the extractor succeeds it has assigned exactly ten
    attributes: nation, the two cities, the two dates, distance, category,
    stage number, profile and classification leaders, whatever rows the
    side-table has. *)
Theorem race_info_attributes {F : Type} {U : Utilities F}
    (info : gmap string info_row) (self_year : Z)
    (self : gmap string (value F)) :
  race_info_init info self_year = Ok self → dom self = race_info_keys.
Proof. apply race_info_init_dom. Qed.

Lemma race_info_attributes_witness :
  ∃ self : gmap string (value Q),
    race_info_init (U:=Sample.utilities) Cases.stage_info 2016 = Ok self
    ∧ dom self = race_info_keys.
Proof.
  assert (∃ r, race_info_init (U:=Sample.utilities) Cases.stage_info 2016
               = Ok r) as [self Hinit] by (eexists; reflexivity).
  exists self. split; [exact Hinit|].
  exact (race_info_attributes (U:=Sample.utilities) _ _ self Hinit).
Defined.

(** Lines 243-245 after 233-241: when the "Nation" row has more than one
    image and the extractor succeeds, the nation is decoded from the last
    image and both cities are the stripped text that follows it, whatever
    the "Where" row says. *)
Theorem several_flags_override {F : Type} {U : Utilities F}
    (info : gmap string info_row) (self_year : Z)
    (self : gmap string (value F)) (row : info_row) :
  race_info_init info self_year = Ok self →
  info !! "Nation" = Some row →
  (1 < length (find_all_img (tr row)))%nat →
  ∃ i nation t,
    last (find_all_img (tr row)) = Some i
    ∧ img_to_country_code (Some i) = Ok nation
    ∧ next_sibling i = TextSibling t
    ∧ self !! "nation" = Some nation
    ∧ self !! "start_city" = Some (VStr (PyStr.strip t))
    ∧ self !! "end_city" = Some (VStr (PyStr.strip t)).
Proof.
  intros H Hrow Hlen.
  apply race_info_init_Ok in H
    as (s1 & s2 & s3 & s4 & s5 & distance & cat & profile & leaders
        & _ & _ & H3 & H4 & _ & _ & H5 & _ & _ & ->).
  apply (get_nation_edge_case_many info s2 s3 row Hrow Hlen) in H3
    as (i & nation & t & Hlast & Hnation & Hsib & ->).
  apply get_dates_Ok in H4 as (sd & ed & ->).
  apply get_stage_num_Ok in H5 as (n & ->).
  exists i, nation, t. split_and!; try done; by simplify_map_eq.
Qed.

Lemma several_flags_override_witness :
  ∃ self : gmap string (value Q),
    race_info_init (U:=Sample.utilities) Cases.games_info 2021 = Ok self
    ∧ self !! "nation" = Some (VStr "JPN")
    ∧ self !! "start_city" = Some (VStr "Tokyo")
    ∧ self !! "end_city" = Some (VStr "Tokyo").
Proof.
  assert (∃ r, race_info_init (U:=Sample.utilities) Cases.games_info 2021
               = Ok r) as [self Hinit] by (eexists; reflexivity).
  exists self. split; [exact Hinit|].
  edestruct (several_flags_override (U:=Sample.utilities) Cases.games_info)
    as (i & nation & t & Hlast & Hnation & Hsib & Hself);
    [exact Hinit|reflexivity|cbn; lia|].
  injection Hlast as <-. injection Hnation as <-. injection Hsib as <-.
  exact Hself.
Defined.

(** Lines 265-269: the profile comes from the image of the "Distance" row
    when the table has that row, and only otherwise from the image of the
    "What" row; a "Distance" row without image gives [None] even when the
    "What" row has an image. *)
Theorem profile_row_precedence {F : Type} {U : Utilities F}
    (info : gmap string info_row) :
  (∀ row, info !! "Distance" = Some row →
     get_profile info
     = match tag_img (tr row) with
       | Some i => img_to_profile i
       | None => Ok VNone
       end)
  ∧ (info !! "Distance" = None →
     get_profile info
     = match info !! "What" with
       | Some row =>
           match tag_img (tr row) with
           | Some i => img_to_profile i
           | None => Ok VNone
           end
       | None => Ok VNone
       end).
Proof.
  unfold get_profile, row_profile, getitem. split.
  - intros row Hrow.
    assert (has_key (details info) "Distance" = true) as ->.
    { apply has_key_true. rewrite details_lookup, Hrow. by eexists. }
    by rewrite soup_details_lookup, Hrow.
  - intros Hdist.
    assert (has_key (details info) "Distance" = false) as ->.
    { apply has_key_false. by rewrite details_lookup, Hdist. }
    destruct (info !! "What") as [row|] eqn:Hwhat.
    + assert (has_key (details info) "What" = true) as ->.
      { apply has_key_true. rewrite details_lookup, Hwhat. by eexists. }
      by rewrite soup_details_lookup, Hwhat.
    + assert (has_key (details info) "What" = false) as ->; [|done].
      apply has_key_false. by rewrite details_lookup, Hwhat.
Qed.

Section Leaders.
Context {F : Type} {U : Utilities F}.
Variable info : gmap string (@info_row F).

Lemma get_classification_leaders_Ok (names : list string)
    (acc leaders : list (string * value F)) :
  get_classification_leaders info names acc = Ok leaders →
  ∃ new,
    leaders = acc ++ new
    ∧ new.*1 = filter (λ c, is_Some (info !! c)) names
    ∧ Forall (leader_of_row info) new.
Proof.
  revert acc. induction names as [|c names IH]; intros acc H.
  - cbn in H. injection H as <-. exists []. by rewrite app_nil_r.
  - cbn [get_classification_leaders] in H.
    destruct (has_key (details info) c) eqn:Hkey.
    + apply has_key_true in Hkey. rewrite details_lookup in Hkey.
      apply fmap_is_Some in Hkey as Hsome.
      inv_bind H. apply getitem_Ok in Hstep.
      rewrite soup_details_lookup in Hstep.
      destruct (info !! c) as [row|] eqn:Hrow; [|done].
      cbn in Hstep. injection Hstep as <-.
      apply bind_Ok in H as (rider & Hrider & H).
      apply IH in H as (new & -> & Hkeys & Hnew).
      exists ((c, rider) :: new). split_and!.
      * by rewrite <- app_assoc.
      * rewrite filter_cons_True by (by rewrite Hrow). cbn. by rewrite Hkeys.
      * apply Forall_cons. split; [|done]. exists row. cbn. by split.
    + apply has_key_false in Hkey. rewrite details_lookup in Hkey.
      apply fmap_None in Hkey.
      apply IH in H as (new & -> & Hkeys & Hnew).
      exists new. split_and!; [done| |done].
      rewrite filter_cons_False; [done|]. rewrite Hkey. by intros [? ?].
Qed.

End Leaders.

(** Lines 272-275: when the extractor succeeds, the keys of the
    classification leaders are the names among Leader, Youth, Points,
    Mountain and Combative that are rows of the side-table, in that order,
    and each value is the rider decoded from the link of its row; no other
    row of the table is a leader. *)
Theorem classification_leaders_of_table {F : Type} {U : Utilities F}
    (info : gmap string info_row) (self_year : Z)
    (self : gmap string (value F)) :
  race_info_init info self_year = Ok self →
  ∃ leaders,
    self !! "classification_leaders" = Some (VDict leaders)
    ∧ leaders.*1
      = filter (λ c, is_Some (info !! c))
          ["Leader"; "Youth"; "Points"; "Mountain"; "Combative"]
    ∧ Forall (leader_of_row info) leaders.
Proof.
  intros H.
  apply race_info_init_Ok in H
    as (s1 & s2 & s3 & s4 & s5 & distance & cat & profile & leaders
        & _ & _ & _ & _ & _ & _ & _ & _ & Hleaders & ->).
  apply get_classification_leaders_Ok in Hleaders
    as (new & -> & Hkeys & Hnew).
  exists new. split_and!; [|done..]. by rewrite lookup_insert_eq.
Qed.

Lemma classification_leaders_of_table_witness :
  ∃ (self : gmap string (value Q)) leaders,
    race_info_init (U:=Sample.utilities) Cases.leaders_info 2021 = Ok self
    ∧ self !! "classification_leaders" = Some (VDict leaders)
    ∧ leaders.*1 = ["Leader"; "Points"].
Proof.
  assert (∃ r, race_info_init (U:=Sample.utilities) Cases.leaders_info 2021
               = Ok r) as [self Hinit] by (eexists; reflexivity).
  destruct (classification_leaders_of_table (U:=Sample.utilities)
              Cases.leaders_info 2021 self Hinit)
    as (leaders & Hself & Hkeys & _).
  exists self, leaders. split; [exact Hinit|]. split; [exact Hself|].
  exact Hkeys.
Defined.

(** Lines 259-262, for a side-table with a "What" row on Latin-1 text. A
    value that is a number, the NaN of an empty cell for one, raises
    [TypeError]. For a text, the numeric characters of the value are joined:
    when they are digits 0 to 9 and there is one at least, the stage number
    is zero if the text contains Prologue and the number they write if not;
    when there is none, or one of them is no digit 0 to 9 such as a
    superscript two, the extractor raises [ValueError]. *)
Theorem stage_number_of_what {F : Type} {U : Utilities F}
    (info : gmap string info_row) (self : gmap string (value F))
    (what_ : cell) :
  details info !! "What" = Some what_ →
  (∀ v, what_ = CellNumber v → get_stage_num info self = Raise TypeError)
  ∧ (∀ what, what_ = CellText what →
       get_stage_num info self =
       if PyStr.isdecimal (PyStr.filter PyStr.isnumeric_char what)
       then Ok (<["stage_num" :=
                   if PyStr.contains "Prologue" what then VInt 0
                   else VInt (PyStr.digits_val 0
                                (PyStr.filter PyStr.isnumeric_char what))]>
                  self)
       else Raise ValueError).
Proof.
  intros Hwhat. split.
  - intros v ->. unfold get_stage_num.
    assert (has_key (details info) "What" = true) as ->
      by (apply has_key_true; eauto).
    assert (getitem (details info) "What" = Ok (CellNumber v)) as ->
      by (by apply getitem_Ok).
    done.
  - intros what ->. by apply get_stage_num_what.
Qed.

Lemma stage_number_of_what_witness :
  get_stage_num (F:=Q) Cases.stage_info ∅ = Ok {["stage_num" := VInt 5]}
  ∧ get_stage_num (F:=Q) Cases.numeric_info ∅ = Raise TypeError.
Proof.
  split.
  - exact (proj2 (stage_number_of_what (U:=Sample.utilities)
                    Cases.stage_info ∅ (CellText "Stage 5") eq_refl)
             "Stage 5" eq_refl).
  - exact (proj1 (stage_number_of_what (U:=Sample.utilities)
                    Cases.numeric_info ∅ (CellNumber (VInt 5)) eq_refl)
             (VInt 5) eq_refl).
Defined.

Example stage_with_superscript_raises (info : gmap string info_row) :
  info !! "What"
  = Some (InfoRow (CellText ("Stage 5" +:+ String (ascii_of_nat 178) ""))
            (Sample.td "Stage 5")) →
  get_stage_num (F:=Q) info ∅ = Raise ValueError.
Proof.
  intros Hwhat.
  rewrite (get_stage_num_what _ _
             ("Stage 5" +:+ String (ascii_of_nat 178) "")); [done|].
  by rewrite details_lookup, Hwhat.
Qed.

(** Line 233: a side-table with neither a "Nation" nor a "Where" row makes
    the extractor raise [KeyError], whatever its other rows and the year. *)
Theorem nation_needs_a_row {F : Type} {U : Utilities F}
    (info : gmap string info_row) (self_year : Z) :
  info !! "Nation" = None → info !! "Where" = None →
  race_info_init info self_year = Raise KeyError.
Proof.
  intros Hnation Hwhere. unfold race_info_init.
  by rewrite get_nation_no_key.
Qed.

Lemma nation_needs_a_row_witness :
  race_info_init (U:=Sample.utilities) Cases.no_nation_info 1999
  = Raise KeyError.
Proof.
  exact (nation_needs_a_row (U:=Sample.utilities) Cases.no_nation_info 1999
           eq_refl eq_refl).
Defined.
